(** * Driver vigilance monitor: the classification core of [monitoring.js]

    A shallow embedding of [src/AAI Mini project/src/monitoring.js]: the
    feature extractors ([euclideanDistance], [calculateEAR], [calculateMAR],
    [calculateHeadPose]), the alert set ([updateAlert]), the per-frame
    classifier ([predictWebcam]) and the reset ([stopMonitoring]).

    JavaScript numbers are IEEE 754 binary64 values, so landmark coordinates
    and the three ratios are primitive floats ([PrimFloat.float]) and every
    operator below is the IEEE operator the script runs.  The four frame
    counters only ever hold small integers (they are incremented by one per
    video frame, exact in binary64 up to 2^53), so they are [nat]. *)

From Stdlib Require Import ZArith List String Bool Lia PeanoNat.
From Stdlib Require Import Floats.
Import ListNotations.

Set Warnings "-inexact-float".
Local Open Scope string_scope.
Local Open Scope list_scope.

(** ** Thresholds (lines 35-49) *)

Definition EAR_THRESHOLD_CLOSED : float := 0.18%float.
Definition EAR_THRESHOLD_PARTIALLY : float := 0.22%float.
Definition MAR_THRESHOLD_YAWN : float := 0.6%float.
Definition MAR_THRESHOLD_ALERT : float := 0.8%float.
Definition YAW_RATIO_LEFT : float := 0.4%float.
Definition YAW_RATIO_RIGHT : float := 2.5%float.
Definition CONSECUTIVE_FRAMES : nat := 15.

(** ** Landmarks *)

(** One MediaPipe landmark: an object with numeric fields [x], [y], [z]. *)
Record Landmark : Type := mkLandmark { x : float; y : float; z : float }.

(** [landmarks[i]] followed by a property read.  Indexing past the end of a
    JavaScript array yields [undefined], and reading [.x] of [undefined]
    throws a [TypeError]; [None] stands for that throw. *)
Definition at_index (landmarks : list Landmark) (i : nat) : option Landmark :=
  nth_error landmarks i.

Definition bind {A B : Type} (m : option A) (k : A -> option B) : option B :=
  match m with
  | Some a => k a
  | None => None
  end.

Notation "'let*' p ':=' m 'in' k" := (bind m (fun p => k))
  (at level 10, p pattern, m at level 100, k at level 200, only parsing).

(** ** Feature extractors (lines 83-142) *)

Definition euclideanDistance (point1 point2 : Landmark) : float :=
  let dx := (x point1 - x point2)%float in
  let dy := (y point1 - y point2)%float in
  let dz := (z point1 - z point2)%float in
  PrimFloat.sqrt (dx * dx + dy * dy + dz * dz)%float.

(** [euclideanDistance(landmarks[i], landmarks[j])]. *)
Definition distanceAt (landmarks : list Landmark) (i j : nat) : option float :=
  let* p := at_index landmarks i in
  let* q := at_index landmarks j in
  Some (euclideanDistance p q).

Definition calculateEAR (landmarks : list Landmark) : option float :=
  let* leftEye_V1 := distanceAt landmarks 160 144 in
  let* leftEye_V2 := distanceAt landmarks 158 153 in
  let* leftEye_H := distanceAt landmarks 33 133 in
  let* rightEye_V1 := distanceAt landmarks 385 380 in
  let* rightEye_V2 := distanceAt landmarks 387 373 in
  let* rightEye_H := distanceAt landmarks 362 263 in
  let leftEAR := ((leftEye_V1 + leftEye_V2) / (2.0 * leftEye_H))%float in
  let rightEAR := ((rightEye_V1 + rightEye_V2) / (2.0 * rightEye_H))%float in
  Some ((leftEAR + rightEAR) / 2.0)%float.

Definition calculateMAR (landmarks : list Landmark) : option float :=
  let* mouthVertical := distanceAt landmarks 13 14 in
  let* mouthHorizontal := distanceAt landmarks 78 308 in
  Some (mouthVertical / mouthHorizontal)%float.

Record HeadPose : Type := mkHeadPose { yawRatio : float; pitch : float; roll : float }.

(** The guarded denominator of line 131: [rightDist === 0 ? 0.001 : rightDist]. *)
Definition safeRightDist (rightDist : float) : float :=
  if (rightDist =? 0)%float then 0.001%float else rightDist.

Definition calculateHeadPose (landmarks : list Landmark) : option HeadPose :=
  let* noseTip := at_index landmarks 1 in
  let* leftCheek := at_index landmarks 234 in
  let* rightCheek := at_index landmarks 454 in
  let leftDist := PrimFloat.abs (x noseTip - x leftCheek)%float in
  let rightDist := PrimFloat.abs (x rightCheek - x noseTip)%float in
  Some {| yawRatio := (leftDist / safeRightDist rightDist)%float;
          pitch := 0%float;
          roll := 0%float |}.

(** Lines 127-128 on their own: [leftDist] and [rightDist]. *)
Definition headDistances (landmarks : list Landmark) : option (float * float) :=
  let* noseTip := at_index landmarks 1 in
  let* leftCheek := at_index landmarks 234 in
  let* rightCheek := at_index landmarks 454 in
  Some (PrimFloat.abs (x noseTip - x leftCheek)%float,
        PrimFloat.abs (x rightCheek - x noseTip)%float).

(** ** The head-yaw ratio as the specification words it *)

Definition DIVISION_EPSILON : float := 0.001%float.

(** The larger of two numbers. *)
Definition fmax (a b : float) : float := if (a <? b)%float then b else a.

(** The specification's [leftDist / max(rightDist, epsilon)]; compared with
    [calculateHeadPose] below. *)
Definition headYawRatio_spec (landmarks : list Landmark) : option float :=
  let* d := headDistances landmarks in
  Some (fst d / fmax (snd d) DIVISION_EPSILON)%float.

(** The ratio the specification's sentence on distances would give for the
    head: both distances taken as full 3D distances between the landmarks. *)
Definition headYawRatio_3d (landmarks : list Landmark) : option float :=
  let* leftDist := distanceAt landmarks 1 234 in
  let* rightDist := distanceAt landmarks 454 1 in
  Some (leftDist / safeRightDist rightDist)%float.

(** ** Module state (lines 11, 51-56) *)

(** The script keeps its state in module-level variables.  [currentAlerts] is
    a JavaScript [Set] of strings: no duplicates, iterated in insertion order,
    so it is a duplicate-free list with new members appended.  The DOM and
    the audio element are outside this model; [isAlertPlaying] is the script's
    own record of whether the alarm loops. *)
Record State : Type := mkState {
  eyeClosedFrames : nat;
  eyePartiallyClosedFrames : nat;
  yawnFrames : nat;
  headTurnedFrames : nat;
  isAlertPlaying : bool;
  currentAlerts : list string;
  lastVideoTime : float
}.

Definition initialState : State :=
  {| eyeClosedFrames := 0;
     eyePartiallyClosedFrames := 0;
     yawnFrames := 0;
     headTurnedFrames := 0;
     isAlertPlaying := false;
     currentAlerts := [];
     lastVideoTime := (-1)%float |}.

Definition set_eyeClosedFrames (n : nat) (st : State) : State :=
  mkState n (eyePartiallyClosedFrames st) (yawnFrames st) (headTurnedFrames st)
          (isAlertPlaying st) (currentAlerts st) (lastVideoTime st).
Definition set_eyePartiallyClosedFrames (n : nat) (st : State) : State :=
  mkState (eyeClosedFrames st) n (yawnFrames st) (headTurnedFrames st)
          (isAlertPlaying st) (currentAlerts st) (lastVideoTime st).
Definition set_yawnFrames (n : nat) (st : State) : State :=
  mkState (eyeClosedFrames st) (eyePartiallyClosedFrames st) n (headTurnedFrames st)
          (isAlertPlaying st) (currentAlerts st) (lastVideoTime st).
Definition set_headTurnedFrames (n : nat) (st : State) : State :=
  mkState (eyeClosedFrames st) (eyePartiallyClosedFrames st) (yawnFrames st) n
          (isAlertPlaying st) (currentAlerts st) (lastVideoTime st).
Definition set_isAlertPlaying (b : bool) (st : State) : State :=
  mkState (eyeClosedFrames st) (eyePartiallyClosedFrames st) (yawnFrames st)
          (headTurnedFrames st) b (currentAlerts st) (lastVideoTime st).
Definition set_currentAlerts (s : list string) (st : State) : State :=
  mkState (eyeClosedFrames st) (eyePartiallyClosedFrames st) (yawnFrames st)
          (headTurnedFrames st) (isAlertPlaying st) s (lastVideoTime st).
Definition set_lastVideoTime (t : float) (st : State) : State :=
  mkState (eyeClosedFrames st) (eyePartiallyClosedFrames st) (yawnFrames st)
          (headTurnedFrames st) (isAlertPlaying st) (currentAlerts st) t.

(** ** The alert set (lines 144-171) *)

Module JsSet.
Definition has (s : list string) (v : string) : bool :=
  existsb (String.eqb v) s.
Definition add (s : list string) (v : string) : list string :=
  if has s v then s else (s ++ [v])%list.
Definition delete (s : list string) (v : string) : list string :=
  filter (fun u => negb (String.eqb v u)) s.
Definition size (s : list string) : nat := List.length s.
Definition clear (s : list string) : list string := [].
End JsSet.

Definition EYES_CLOSED : string := "🚨 EYES CLOSED".
Definition EYES_PARTIALLY_CLOSED : string := "⚠️ EYES PARTIALLY CLOSED".
Definition EXCESSIVE_YAWNING : string := "⚠️ EXCESSIVE YAWNING".
Definition YAWNING_DETECTED : string := "⚠️ YAWNING DETECTED".
Definition HEAD_NOT_FORWARD : string := "⚠️ HEAD NOT FORWARD".

Definition updateAlert (type : string) (isActive : bool) (st : State) : State :=
  let st :=
    if isActive
    then set_currentAlerts (JsSet.add (currentAlerts st) type) st
    else set_currentAlerts (JsSet.delete (currentAlerts st) type) st in
  if (0 <? JsSet.size (currentAlerts st))%nat then
    if negb (isAlertPlaying st) then set_isAlertPlaying true st else st
  else
    if isAlertPlaying st then set_isAlertPlaying false st else st.

(** ** The per-frame classifier (lines 295-402) *)

(** The arguments of the [updateUI] call of line 395: what one processed
    frame reports. *)
Record Report : Type := mkReport {
  ear : float;
  mar : float;
  headPose : HeadPose;
  eyeStatus : string;
  yawnStatus : string;
  headStatus : string;
  driverStatus : string
}.

(** Eye status detection, lines 321-345.  [eyeStatus] starts as ['OPEN']
    (line 316) and is overwritten only where the script assigns it. *)
Definition detectEyes (ear : float) (st : State) : State * string :=
  if (ear <? EAR_THRESHOLD_CLOSED)%float then
    let st := set_eyeClosedFrames (eyeClosedFrames st + 1) st in
    let st := set_eyePartiallyClosedFrames 0 st in
    if (CONSECUTIVE_FRAMES <=? eyeClosedFrames st)%nat
    then (updateAlert EYES_CLOSED true st, "CLOSED")
    else (st, "OPEN")
  else if (ear <? EAR_THRESHOLD_PARTIALLY)%float then
    let st := set_eyePartiallyClosedFrames (eyePartiallyClosedFrames st + 1) st in
    let st := set_eyeClosedFrames 0 st in
    if (CONSECUTIVE_FRAMES <=? eyePartiallyClosedFrames st)%nat
    then (updateAlert EYES_PARTIALLY_CLOSED true st, "PARTIALLY_CLOSED")
    else (st, "OPEN")
  else
    let st := set_eyeClosedFrames 0 st in
    let st := set_eyePartiallyClosedFrames 0 st in
    let st := updateAlert EYES_CLOSED false st in
    let st := updateAlert EYES_PARTIALLY_CLOSED false st in
    (st, "OPEN").

(** Yawning detection, lines 347-366. *)
Definition detectYawn (mar : float) (st : State) : State * string :=
  if (MAR_THRESHOLD_YAWN <? mar)%float then
    let st := set_yawnFrames (yawnFrames st + 1) st in
    if (CONSECUTIVE_FRAMES <=? yawnFrames st)%nat then
      if (MAR_THRESHOLD_ALERT <? mar)%float
      then (updateAlert EXCESSIVE_YAWNING true st, "YAWNING")
      else (updateAlert YAWNING_DETECTED true st, "YAWNING")
    else (st, "NORMAL")
  else
    let st := set_yawnFrames 0 st in
    let st := updateAlert YAWNING_DETECTED false st in
    let st := updateAlert EXCESSIVE_YAWNING false st in
    (st, "NORMAL").

(** Head posture detection, lines 368-385. *)
Definition headTurnAlert (headPose : HeadPose) : bool :=
  let isLookingLeft := (yawRatio headPose <? YAW_RATIO_LEFT)%float in
  let isLookingRight := (YAW_RATIO_RIGHT <? yawRatio headPose)%float in
  isLookingLeft || isLookingRight.

Definition detectHead (headPose : HeadPose) (st : State) : State * string :=
  if headTurnAlert headPose then
    let st := set_headTurnedFrames (headTurnedFrames st + 1) st in
    if (CONSECUTIVE_FRAMES <=? headTurnedFrames st)%nat
    then (updateAlert HEAD_NOT_FORWARD true st, "TURNED")
    else (st, "FORWARD")
  else
    let st := set_headTurnedFrames 0 st in
    let st := updateAlert HEAD_NOT_FORWARD false st in
    (st, "FORWARD").

(** Lines 316-395: the three detectors in order, then the overall status. *)
Definition classify (ear mar : float) (headPose : HeadPose) (st : State)
  : State * Report :=
  let '(st, eyeStatus) := detectEyes ear st in
  let '(st, yawnStatus) := detectYawn mar st in
  let '(st, headStatus) := detectHead headPose st in
  let driverStatus :=
    if (0 <? JsSet.size (currentAlerts st))%nat then "DROWSY" else "SAFE" in
  (st, mkReport ear mar headPose eyeStatus yawnStatus headStatus driverStatus).

(** One run of the animation-frame callback reads [video.currentTime] and the
    [faceLandmarks] of [detectForVideo]: an array with one landmark array per
    detected face ([None] for a missing property). *)
Record Tick : Type := mkTick {
  currentTime : float;
  faceLandmarks : option (list (list Landmark))
}.

(** Lines 312-314: the three features of a landmark array; [None] when a
    required landmark is missing and the script throws. *)
Definition features (landmarks : list Landmark) : option (float * float * HeadPose) :=
  let* ear := calculateEAR landmarks in
  let* mar := calculateMAR landmarks in
  let* headPose := calculateHeadPose landmarks in
  Some (ear, mar, headPose).

(** How a call ends: it returns, having called [updateUI] or not, or it
    throws, leaving the state as it was at the throw. *)
Inductive Completion : Type :=
| Returned (st : State) (report : option Report)
| Threw (st : State).

Definition stateOf (c : Completion) : State :=
  match c with
  | Returned st _ => st
  | Threw st => st
  end.

Definition reportOf (c : Completion) : option Report :=
  match c with
  | Returned _ report => report
  | Threw _ => None
  end.

(** [predictWebcam], once the model is loaded ([faceLandmarker] is assigned
    before the first call and never cleared).  The canvas, the FPS counter and
    the rescheduling are outside the model. *)
Definition predictWebcam (st : State) (t : Tick) : Completion :=
  if negb (lastVideoTime st =? currentTime t)%float then
    let st := set_lastVideoTime (currentTime t) st in
    match faceLandmarks t with
    | Some (landmarks :: _) =>
        match features landmarks with
        | Some (ear, mar, headPose) =>
            let '(st, report) := classify ear mar headPose st in
            Returned st (Some report)
        | None => Threw st
        end
    | _ => Returned st None
    end
  else Returned st None.

(** ** The status panel (lines 173-216) *)




(** ** Reset (lines 472-521) *)

(** The stop button's handler on the variables of [State]: lines 486-497.
    Cancelling the animation frame, stopping the camera tracks and the DOM
    writes before and after them touch none of these variables, and
    [lastVideoTime] is not reset. *)
Definition stopMonitoring (st : State) : State :=
  let st := if isAlertPlaying st then set_isAlertPlaying false st else st in
  let st := set_currentAlerts (JsSet.clear (currentAlerts st)) st in
  let st := set_eyeClosedFrames 0 st in
  let st := set_eyePartiallyClosedFrames 0 st in
  let st := set_yawnFrames 0 st in
  let st := set_headTurnedFrames 0 st in
  st.

(** ** Runs *)

(** The completions of consecutive calls of [predictWebcam].  A throw ends the
    animation loop in the browser; continuing from the state it left only
    enlarges the set of runs considered. *)
Fixpoint frames (st : State) (ticks : list Tick) : list Completion :=
  match ticks with
  | [] => []
  | t :: ticks' =>
      let c := predictWebcam st t in
      c :: frames (stateOf c) ticks'
  end.

Definition run (st : State) (ticks : list Tick) : State :=
  fold_left (fun s t => stateOf (predictWebcam s t)) ticks st.

(** The states the page can be in: the script's initial values, then any
    interleaving of animation frames and clicks on the stop button. *)
Inductive reachable : State -> Prop :=
| reach_init : reachable initialState
| reach_frame st t : reachable st -> reachable (stateOf (predictWebcam st t))
| reach_stop st : reachable st -> reachable (stopMonitoring st).

(** Each tick shows a video time different from the one before, so that each
    is processed (the test of line 305). *)
Fixpoint advancing (last : float) (ticks : list Tick) : bool :=
  match ticks with
  | [] => true
  | t :: ticks' =>
      negb (last =? currentTime t)%float && advancing (currentTime t) ticks'
  end.

(** What a tick shows: the features of the first detected face, if any. *)
Definition tickFeatures (t : Tick) : option (float * float * HeadPose) :=
  match faceLandmarks t with
  | Some (landmarks :: _) => features landmarks
  | _ => None
  end.

(** The detector found a face whose features are [e], [m] and [h]. *)
Definition detects (t : Tick) (e m : float) (h : HeadPose) : Prop :=
  tickFeatures t = Some (e, m, h).

Definition hasEAR (e : float) (t : Tick) : Prop := exists m h, detects t e m h.
Definition hasMAR (m : float) (t : Tick) : Prop := exists e h, detects t e m h.

(** A detected face whose EAR is below [EAR_THRESHOLD_CLOSED]. *)
Definition closedEyes (t : Tick) : Prop :=
  exists e, hasEAR e t /\ (e <? EAR_THRESHOLD_CLOSED)%float = true.

(** A detected face whose EAR is in
    [[EAR_THRESHOLD_CLOSED, EAR_THRESHOLD_PARTIALLY)]. *)
Definition partialEyes (t : Tick) : Prop :=
  exists e, hasEAR e t /\ (e <? EAR_THRESHOLD_CLOSED)%float = false /\
            (e <? EAR_THRESHOLD_PARTIALLY)%float = true.

(** A detected face whose MAR is above [MAR_THRESHOLD_YAWN]. *)
Definition openMouth (t : Tick) : Prop :=
  exists m, hasMAR m t /\ (MAR_THRESHOLD_YAWN <? m)%float = true.

(** The video time of the last of [ticks] ([last] when there is none). *)
Definition lastTime (last : float) (ticks : list Tick) : float :=
  fold_left (fun _ t => currentTime t) ticks last.

(** The detector found no face. *)
Definition noDetection (t : Tick) : Prop :=
  faceLandmarks t = None \/ faceLandmarks t = Some [].

(** The counters and the alert set: the state the classification depends on. *)
Definition core (st : State) : nat * nat * nat * nat * list string :=
  (eyeClosedFrames st, eyePartiallyClosedFrames st, yawnFrames st,
   headTurnedFrames st, currentAlerts st).

(** [driverStatus] agrees with an alert set: DROWSY when it has a member, SAFE
    when it has none. *)
Definition statusMatches (status : string) (alerts : list string) : Prop :=
  (status = "DROWSY" <-> alerts <> []) /\ (status = "SAFE" <-> alerts = []).

(** The report of the most recent call that made one. *)
Definition lastReport (cs : list Completion) : option Report :=
  fold_left (fun acc c => match reportOf c with Some r => Some r | None => acc end)
            cs None.

(** A detected face whose yaw ratio is outside
    [[YAW_RATIO_LEFT, YAW_RATIO_RIGHT]]. *)
Definition turnedHead (t : Tick) : Prop :=
  exists e m h, detects t e m h /\ headTurnAlert h = true.

(** A landmark whose three coordinates are finite numbers. *)
Definition finiteLandmark (p : Landmark) : bool :=
  is_finite (x p) && is_finite (y p) && is_finite (z p).

(** A binary64 value that is not negative: NaN, or a zero, a finite number
    or an infinity with the sign bit clear. *)
Definition signClear (f : spec_float) : Prop :=
  match f with
  | S754_nan => True
  | S754_zero s | S754_infinity s | S754_finite s _ _ => s = false
  end.

(** Positive infinity or NaN: what a division by zero gives. *)
Definition infOrNan (f : spec_float) : Prop :=
  f = S754_infinity false \/ f = S754_nan.

(** The five alert strings the script passes to [updateAlert]. *)
Definition alertKinds : list string :=
  [EYES_CLOSED; EYES_PARTIALLY_CLOSED; EXCESSIVE_YAWNING; YAWNING_DETECTED;
   HEAD_NOT_FORWARD].

(** [isAlertPlaying] says the alarm loops exactly when an alert is active. *)
Definition alarmFollowsAlerts (st : State) : Prop :=
  isAlertPlaying st = (0 <? JsSet.size (currentAlerts st))%nat.

(** ** Sample frames *)

(** A 468-point face with chosen eye opening [v] over eye width [h], mouth
    opening [mv] over mouth width [mh], and chosen [x] of the nose tip and of
    the two cheek edges; every other coordinate is 0. *)
Definition sampleLandmark (v h mv mh nose left right : float) (i : nat) : Landmark :=
  let o := 0%float in
  if existsb (Nat.eqb i) [160; 158; 385; 387] then mkLandmark o v o
  else if existsb (Nat.eqb i) [133; 263] then mkLandmark h o o
  else if Nat.eqb i 13 then mkLandmark o mv o
  else if Nat.eqb i 308 then mkLandmark mh o o
  else if Nat.eqb i 1 then mkLandmark nose o o
  else if Nat.eqb i 234 then mkLandmark left o o
  else if Nat.eqb i 454 then mkLandmark right o o
  else mkLandmark o o o.

Definition sampleFace (v h mv mh nose left right : float) : list Landmark :=
  map (sampleLandmark v h mv mh nose left right) (seq 0 468).

(** A centred face with the given eye and mouth openings (widths 1). *)
Definition faceOf (v mv : float) : list Landmark :=
  sampleFace v 1 mv 1 0.5 0.25 0.75.

(** [landmarks] with the landmark at index [i] replaced by [p]. *)
Definition setAt (i : nat) (p : Landmark) (landmarks : list Landmark) : list Landmark :=
  firstn i landmarks ++ p :: skipn (S i) landmarks.

(** [n] ticks at video times [t0+1, t0+2, ...], each showing [face]. *)
Fixpoint ticksOf (face : list Landmark) (t0 : float) (n : nat) : list Tick :=
  match n with
  | O => []
  | S n' => mkTick (t0 + 1)%float (Some [face]) :: ticksOf face (t0 + 1)%float n'
  end.

(** * Properties *)

(** ** Binary64 facts used below *)

Lemma SFcompare_antisym (a b : spec_float) :
  SFcompare b a = option_map CompOpp (SFcompare a b).
Proof.
  destruct a as [[|]| [|] | | [|] ma ea], b as [[|]| [|] | | [|] mb eb];
    cbn; try reflexivity.
  all: rewrite (Z.compare_antisym ea eb); destruct (ea ?= eb)%Z; cbn;
    try reflexivity.
  all: rewrite Pos.compare_cont_antisym; cbn; rewrite ?CompOpp_involutive;
    reflexivity.
Qed.

Lemma SFcompare_None (a b : spec_float) :
  SFcompare a b = None -> a = S754_nan \/ b = S754_nan.
Proof.
  destruct a as [[|]| [|] | | [|] ma ea], b as [[|]| [|] | | [|] mb eb];
    cbn; try discriminate; auto.
Qed.

Lemma is_nan_spec (a : float) : is_nan a = true <-> Prim2SF a = S754_nan.
Proof.
  unfold is_nan. rewrite eqb_spec. unfold SFeqb.
  destruct (Prim2SF a) as [[|]| [|] | | [|] ma ea]; cbn;
    try (split; discriminate); try tauto.
  all: rewrite Z.compare_refl, ?Pos.compare_cont_refl; cbn; split; discriminate.
Qed.

(** [a <= b] excludes [b < a]. *)
Lemma leb_ltb (a b : float) : (a <=? b)%float = true -> (b <? a)%float = false.
Proof.
  rewrite leb_spec, ltb_spec. unfold SFleb, SFltb.
  rewrite (SFcompare_antisym (Prim2SF a) (Prim2SF b)).
  destruct (SFcompare (Prim2SF a) (Prim2SF b)) as [[| |]|]; cbn; congruence.
Qed.

(** When [a < b] fails, either [b <= a] or one of the two is NaN. *)
Lemma ltb_false (a b : float) :
  (a <? b)%float = false ->
  (b <=? a)%float = true \/ is_nan a = true \/ is_nan b = true.
Proof.
  rewrite leb_spec, ltb_spec, !is_nan_spec. unfold SFleb, SFltb.
  rewrite (SFcompare_antisym (Prim2SF a) (Prim2SF b)).
  destruct (SFcompare (Prim2SF a) (Prim2SF b)) as [[| |]|] eqn:E; cbn;
    try discriminate; auto.
  intros _. right. now apply SFcompare_None.
Qed.

Lemma div_eucl_shift (m : positive) :
  Z.div_eucl (Z.shiftl (Z.pos m) 53) (Z.pos m) = (2 ^ 53, 0)%Z.
Proof.
  rewrite Z.shiftl_mul_pow2 by lia.
  pose proof (Z.div_mul (2 ^ 53) (Z.pos m) ltac:(lia)) as Hq.
  pose proof (Z.mod_mul (2 ^ 53) (Z.pos m) ltac:(lia)) as Hr.
  rewrite (Z.mul_comm (Z.pos m)).
  unfold Z.div, Z.modulo in Hq, Hr.
  destruct (Z.div_eucl (2 ^ 53 * Z.pos m) (Z.pos m)) as [q r]. cbn in Hq, Hr.
  subst q r. reflexivity.
Qed.

Lemma SFdiv_self (s : bool) (m : positive) (e : Z) :
  SF64div (S754_finite s m e) (S754_finite s m e) = Prim2SF 1.
Proof.
  unfold SF64div, SFdiv, SFdiv_core_binary.
  replace (Zdigits2 (Z.pos m) + e - (Zdigits2 (Z.pos m) + e))%Z with 0%Z by lia.
  rewrite Z.sub_diag.
  change (Z.min (fexp prec emax 0) 0) with (-53)%Z.
  change (0 - -53)%Z with 53%Z. cbv iota beta zeta.
  rewrite div_eucl_shift.
  assert (L : new_location (Z.pos m) 0 = loc_Exact).
  { unfold new_location. destruct (Z.even (Z.pos m)); reflexivity. }
  rewrite L. rewrite xorb_nilpotent. reflexivity.
Qed.

(** A finite non-zero binary64 number divided by itself is exactly 1. *)
Lemma div_self (a : float) :
  is_finite a = true -> is_zero a = false -> (a / a)%float = 1%float.
Proof.
  unfold is_finite, is_zero, is_nan, is_infinity.
  rewrite !eqb_spec, abs_spec. intros Hf Hz.
  apply Prim2SF_inj. rewrite div_spec.
  destruct (Prim2SF a) as [[|]| [|] | | s m e]; try discriminate.
  apply SFdiv_self.
Qed.

(** ** The alert set *)

Lemma has_In (s : list string) (v : string) : JsSet.has s v = true <-> In v s.
Proof.
  unfold JsSet.has. rewrite existsb_exists. split.
  - intros (u & Hu & E). apply String.eqb_eq in E. now subst.
  - intros H. exists v. split; [assumption | apply String.eqb_refl].
Qed.

Lemma add_In (s : list string) (t v : string) :
  In v (JsSet.add s t) <-> In v s \/ v = t.
Proof.
  unfold JsSet.add. destruct (JsSet.has s t) eqn:E.
  - apply has_In in E. split; [now left | intros [H | ->]; assumption].
  - rewrite in_app_iff. simpl. intuition congruence.
Qed.

Lemma delete_In (s : list string) (t v : string) :
  In v (JsSet.delete s t) <-> In v s /\ v <> t.
Proof.
  unfold JsSet.delete. rewrite filter_In, negb_true_iff, String.eqb_neq.
  intuition congruence.
Qed.

(** [updateAlert] touches the alert set and the alarm flag, nothing else. *)
Lemma updateAlert_alerts (type : string) (isActive : bool) (st : State) :
  currentAlerts (updateAlert type isActive st) =
  if isActive then JsSet.add (currentAlerts st) type
  else JsSet.delete (currentAlerts st) type.
Proof.
  unfold updateAlert.
  destruct isActive; cbn;
    repeat match goal with |- context [if ?b then _ else _] => destruct b end;
    reflexivity.
Qed.

Lemma updateAlert_counters (type : string) (isActive : bool) (st : State) :
  eyeClosedFrames (updateAlert type isActive st) = eyeClosedFrames st /\
  eyePartiallyClosedFrames (updateAlert type isActive st) = eyePartiallyClosedFrames st /\
  yawnFrames (updateAlert type isActive st) = yawnFrames st /\
  headTurnedFrames (updateAlert type isActive st) = headTurnedFrames st /\
  lastVideoTime (updateAlert type isActive st) = lastVideoTime st.
Proof.
  unfold updateAlert.
  destruct isActive; cbn;
    repeat match goal with |- context [if ?b then _ else _] => destruct b end;
    cbn; repeat split; reflexivity.
Qed.

Lemma updateAlert_eyeClosedFrames t b st :
  eyeClosedFrames (updateAlert t b st) = eyeClosedFrames st.
Proof. apply updateAlert_counters. Qed.

Lemma updateAlert_eyePartiallyClosedFrames t b st :
  eyePartiallyClosedFrames (updateAlert t b st) = eyePartiallyClosedFrames st.
Proof. apply updateAlert_counters. Qed.

Lemma updateAlert_yawnFrames t b st :
  yawnFrames (updateAlert t b st) = yawnFrames st.
Proof. apply updateAlert_counters. Qed.

Lemma updateAlert_headTurnedFrames t b st :
  headTurnedFrames (updateAlert t b st) = headTurnedFrames st.
Proof. apply updateAlert_counters. Qed.

Lemma updateAlert_lastVideoTime t b st :
  lastVideoTime (updateAlert t b st) = lastVideoTime st.
Proof. apply updateAlert_counters. Qed.

Create Rewrite HintDb alert.
#[local] Hint Rewrite updateAlert_alerts updateAlert_eyeClosedFrames
  updateAlert_eyePartiallyClosedFrames updateAlert_yawnFrames
  updateAlert_headTurnedFrames updateAlert_lastVideoTime : alert.

(** Unfold one detector, split on its tests and push the projections
    through [updateAlert]. *)
Ltac detector f :=
  unfold f, set_eyeClosedFrames, set_eyePartiallyClosedFrames, set_yawnFrames,
    set_headTurnedFrames;
  cbn [eyeClosedFrames eyePartiallyClosedFrames yawnFrames headTurnedFrames
       isAlertPlaying currentAlerts lastVideoTime];
  repeat match goal with
         | |- context [if ?b then _ else _] => destruct b eqn:?
         end;
  cbn; autorewrite with alert; cbn.

(** Two computed ratios that compare unequal are different. *)
Ltac float_neq H :=
  match type of H with
  | _ = Some ?b =>
      apply (f_equal (fun o => match o with
                               | Some f => (f =? b)%float
                               | None => false
                               end)) in H;
      vm_compute in H; discriminate H
  end.

(** ** The three detectors, field by field *)

Section Detectors.
Variable st : State.

Lemma detectEyes_counters (e : float) :
  let st' := fst (detectEyes e st) in
  eyeClosedFrames st' =
    (if (e <? EAR_THRESHOLD_CLOSED)%float then eyeClosedFrames st + 1 else 0) /\
  eyePartiallyClosedFrames st' =
    (if (e <? EAR_THRESHOLD_CLOSED)%float then 0
     else if (e <? EAR_THRESHOLD_PARTIALLY)%float
          then eyePartiallyClosedFrames st + 1 else 0) /\
  yawnFrames st' = yawnFrames st /\
  headTurnedFrames st' = headTurnedFrames st /\
  lastVideoTime st' = lastVideoTime st.
Proof. detector detectEyes; repeat split; reflexivity. Qed.

Lemma detectEyes_alerts (e : float) :
  currentAlerts (fst (detectEyes e st)) =
    if (e <? EAR_THRESHOLD_CLOSED)%float then
      if (CONSECUTIVE_FRAMES <=? eyeClosedFrames st + 1)%nat
      then JsSet.add (currentAlerts st) EYES_CLOSED else currentAlerts st
    else if (e <? EAR_THRESHOLD_PARTIALLY)%float then
      if (CONSECUTIVE_FRAMES <=? eyePartiallyClosedFrames st + 1)%nat
      then JsSet.add (currentAlerts st) EYES_PARTIALLY_CLOSED else currentAlerts st
    else JsSet.delete (JsSet.delete (currentAlerts st) EYES_CLOSED)
                      EYES_PARTIALLY_CLOSED.
Proof. detector detectEyes; reflexivity. Qed.

Lemma detectEyes_status (e : float) :
  snd (detectEyes e st) =
    if (e <? EAR_THRESHOLD_CLOSED)%float then
      if (CONSECUTIVE_FRAMES <=? eyeClosedFrames st + 1)%nat then "CLOSED" else "OPEN"
    else if (e <? EAR_THRESHOLD_PARTIALLY)%float then
      if (CONSECUTIVE_FRAMES <=? eyePartiallyClosedFrames st + 1)%nat
      then "PARTIALLY_CLOSED" else "OPEN"
    else "OPEN".
Proof. detector detectEyes; reflexivity. Qed.

Lemma detectYawn_counters (m : float) :
  let st' := fst (detectYawn m st) in
  eyeClosedFrames st' = eyeClosedFrames st /\
  eyePartiallyClosedFrames st' = eyePartiallyClosedFrames st /\
  yawnFrames st' = (if (MAR_THRESHOLD_YAWN <? m)%float then yawnFrames st + 1 else 0) /\
  headTurnedFrames st' = headTurnedFrames st /\
  lastVideoTime st' = lastVideoTime st.
Proof. detector detectYawn; repeat split; reflexivity. Qed.

Lemma detectYawn_alerts (m : float) :
  currentAlerts (fst (detectYawn m st)) =
    if (MAR_THRESHOLD_YAWN <? m)%float then
      if (CONSECUTIVE_FRAMES <=? yawnFrames st + 1)%nat then
        if (MAR_THRESHOLD_ALERT <? m)%float
        then JsSet.add (currentAlerts st) EXCESSIVE_YAWNING
        else JsSet.add (currentAlerts st) YAWNING_DETECTED
      else currentAlerts st
    else JsSet.delete (JsSet.delete (currentAlerts st) YAWNING_DETECTED)
                      EXCESSIVE_YAWNING.
Proof. detector detectYawn; reflexivity. Qed.

Lemma detectHead_counters (h : HeadPose) :
  let st' := fst (detectHead h st) in
  eyeClosedFrames st' = eyeClosedFrames st /\
  eyePartiallyClosedFrames st' = eyePartiallyClosedFrames st /\
  yawnFrames st' = yawnFrames st /\
  headTurnedFrames st' = (if headTurnAlert h then headTurnedFrames st + 1 else 0) /\
  lastVideoTime st' = lastVideoTime st.
Proof.
  detector detectHead; repeat split; reflexivity.
Qed.

Lemma detectHead_alerts (h : HeadPose) :
  currentAlerts (fst (detectHead h st)) =
    if headTurnAlert h then
      if (CONSECUTIVE_FRAMES <=? headTurnedFrames st + 1)%nat
      then JsSet.add (currentAlerts st) HEAD_NOT_FORWARD else currentAlerts st
    else JsSet.delete (currentAlerts st) HEAD_NOT_FORWARD.
Proof.
  detector detectHead; reflexivity.
Qed.
End Detectors.

(** ** One classified frame *)

Lemma classify_state (e m : float) (h : HeadPose) (st : State) :
  fst (classify e m h st) =
  fst (detectHead h (fst (detectYawn m (fst (detectEyes e st))))).
Proof.
  unfold classify.
  destruct (detectEyes e st) as [st1 s1]; cbn.
  destruct (detectYawn m st1) as [st2 s2]; cbn.
  destruct (detectHead h st2) as [st3 s3]; reflexivity.
Qed.

Lemma classify_report (e m : float) (h : HeadPose) (st : State) :
  let st1 := fst (detectEyes e st) in
  let st2 := fst (detectYawn m st1) in
  snd (classify e m h st) =
  mkReport e m h (snd (detectEyes e st)) (snd (detectYawn m st1))
           (snd (detectHead h st2))
           (if (0 <? JsSet.size (currentAlerts (fst (classify e m h st))))%nat
            then "DROWSY" else "SAFE").
Proof.
  unfold classify.
  destruct (detectEyes e st) as [st1 s1]; cbn.
  destruct (detectYawn m st1) as [st2 s2]; cbn.
  destruct (detectHead h st2) as [st3 s3]; reflexivity.
Qed.

(** The five alert strings are pairwise different. *)
Lemma alert_kinds_distinct :
  NoDup [EYES_CLOSED; EYES_PARTIALLY_CLOSED; EXCESSIVE_YAWNING;
         YAWNING_DETECTED; HEAD_NOT_FORWARD].
Proof.
  repeat constructor; cbn; intros H;
    repeat (destruct H as [H | H]; [discriminate H|]); exact H.
Qed.

(** Each detector leaves the alerts it does not own alone. *)
Lemma detectEyes_In_other (v : string) (e : float) (st : State) :
  v <> EYES_CLOSED -> v <> EYES_PARTIALLY_CLOSED ->
  In v (currentAlerts (fst (detectEyes e st))) <-> In v (currentAlerts st).
Proof.
  intros H1 H2. rewrite detectEyes_alerts.
  repeat match goal with |- context [if ?b then _ else _] => destruct b end;
    rewrite ?add_In, ?delete_In; intuition congruence.
Qed.

Lemma detectYawn_In_other (v : string) (m : float) (st : State) :
  v <> YAWNING_DETECTED -> v <> EXCESSIVE_YAWNING ->
  In v (currentAlerts (fst (detectYawn m st))) <-> In v (currentAlerts st).
Proof.
  intros H1 H2. rewrite detectYawn_alerts.
  repeat match goal with |- context [if ?b then _ else _] => destruct b end;
    rewrite ?add_In, ?delete_In; intuition congruence.
Qed.

Lemma detectHead_In_other (v : string) (h : HeadPose) (st : State) :
  v <> HEAD_NOT_FORWARD ->
  In v (currentAlerts (fst (detectHead h st))) <-> In v (currentAlerts st).
Proof.
  intros H1. rewrite detectHead_alerts.
  repeat match goal with |- context [if ?b then _ else _] => destruct b end;
    rewrite ?add_In, ?delete_In; intuition congruence.
Qed.

(** Membership of the two eye alerts after a classified frame. *)
Lemma classify_In_eye (v : string) (e m : float) (h : HeadPose) (st : State) :
  v = EYES_CLOSED \/ v = EYES_PARTIALLY_CLOSED ->
  In v (currentAlerts (fst (classify e m h st))) <->
  In v (currentAlerts (fst (detectEyes e st))).
Proof.
  intros Hv. rewrite classify_state.
  rewrite detectHead_In_other, detectYawn_In_other;
    [reflexivity | | | ]; destruct Hv as [-> | ->]; discriminate.
Qed.

(** Membership of the two yawn alerts after a classified frame. *)
Lemma classify_In_yawn (v : string) (e m : float) (h : HeadPose) (st : State) :
  v = YAWNING_DETECTED \/ v = EXCESSIVE_YAWNING ->
  In v (currentAlerts (fst (classify e m h st))) <->
  if (MAR_THRESHOLD_YAWN <? m)%float then
    In v (currentAlerts st) \/
    (CONSECUTIVE_FRAMES <= yawnFrames st + 1 /\
     v = if (MAR_THRESHOLD_ALERT <? m)%float
         then EXCESSIVE_YAWNING else YAWNING_DETECTED)
  else False.
Proof.
  intros Hv. rewrite classify_state.
  rewrite detectHead_In_other by (destruct Hv as [-> | ->]; discriminate).
  rewrite detectYawn_alerts.
  destruct (detectEyes_counters st e) as (_ & _ & -> & _).
  assert (Hsame : In v (currentAlerts (fst (detectEyes e st))) <->
                  In v (currentAlerts st))
    by (apply detectEyes_In_other; destruct Hv as [-> | ->]; discriminate).
  destruct (MAR_THRESHOLD_YAWN <? m)%float.
  - destruct (CONSECUTIVE_FRAMES <=? yawnFrames st + 1)%nat eqn:E.
    + apply Nat.leb_le in E.
      destruct (MAR_THRESHOLD_ALERT <? m)%float; rewrite add_In; tauto.
    + apply Nat.leb_gt in E. rewrite Hsame. intuition lia.
  - rewrite !delete_In. destruct Hv as [-> | ->]; intuition congruence.
Qed.

Lemma classify_eye_counters (e m : float) (h : HeadPose) (st : State) :
  let st' := fst (classify e m h st) in
  eyeClosedFrames st' =
    (if (e <? EAR_THRESHOLD_CLOSED)%float then eyeClosedFrames st + 1 else 0) /\
  eyePartiallyClosedFrames st' =
    (if (e <? EAR_THRESHOLD_CLOSED)%float then 0
     else if (e <? EAR_THRESHOLD_PARTIALLY)%float
          then eyePartiallyClosedFrames st + 1 else 0).
Proof.
  cbn zeta. rewrite classify_state.
  destruct (detectHead_counters (fst (detectYawn m (fst (detectEyes e st)))) h)
    as (-> & -> & _).
  destruct (detectYawn_counters (fst (detectEyes e st)) m) as (-> & -> & _).
  destruct (detectEyes_counters st e) as (-> & -> & _).
  split; reflexivity.
Qed.

Lemma classify_yawnFrames (e m : float) (h : HeadPose) (st : State) :
  yawnFrames (fst (classify e m h st)) =
    if (MAR_THRESHOLD_YAWN <? m)%float then yawnFrames st + 1 else 0.
Proof.
  rewrite classify_state.
  destruct (detectHead_counters (fst (detectYawn m (fst (detectEyes e st)))) h)
    as (_ & _ & -> & _).
  destruct (detectYawn_counters (fst (detectEyes e st)) m) as (_ & _ & -> & _).
  destruct (detectEyes_counters st e) as (_ & _ & -> & _).
  reflexivity.
Qed.

Lemma classify_lastVideoTime (e m : float) (h : HeadPose) (st : State) :
  lastVideoTime (fst (classify e m h st)) = lastVideoTime st.
Proof.
  rewrite classify_state.
  destruct (detectHead_counters (fst (detectYawn m (fst (detectEyes e st)))) h)
    as (_ & _ & _ & _ & ->).
  destruct (detectYawn_counters (fst (detectEyes e st)) m) as (_ & _ & _ & _ & ->).
  destruct (detectEyes_counters st e) as (_ & _ & _ & _ & ->).
  reflexivity.
Qed.

(** ** One call of [predictWebcam] *)

Lemma predictWebcam_detects (st : State) (t : Tick) (e m : float) (h : HeadPose) :
  (lastVideoTime st =? currentTime t)%float = false ->
  detects t e m h ->
  predictWebcam st t =
  Returned (fst (classify e m h (set_lastVideoTime (currentTime t) st)))
           (Some (snd (classify e m h (set_lastVideoTime (currentTime t) st)))).
Proof.
  unfold detects, tickFeatures, predictWebcam. intros -> H. cbn.
  destruct (faceLandmarks t) as [[|lm rest]|]; try discriminate.
  rewrite H. destruct (classify _ _ _ _); reflexivity.
Qed.

(** A call that reports nothing (same video time, no face, or a throw) leaves
    the counters and the alert set as they were. *)
Lemma predictWebcam_silent (st : State) (t : Tick) :
  reportOf (predictWebcam st t) = None ->
  core (stateOf (predictWebcam st t)) = core st /\
  isAlertPlaying (stateOf (predictWebcam st t)) = isAlertPlaying st.
Proof.
  unfold predictWebcam.
  destruct (negb _); [|split; reflexivity].
  destruct (faceLandmarks t) as [[|lm rest]|]; try (split; reflexivity).
  destruct (features lm) as [[[e m] h]|]; [|split; reflexivity].
  destruct (classify _ _ _ _); discriminate.
Qed.

Lemma classify_features (e m : float) (h : HeadPose) (st : State) :
  ear (snd (classify e m h st)) = e /\
  mar (snd (classify e m h st)) = m /\
  headPose (snd (classify e m h st)) = h.
Proof. rewrite classify_report. cbn. repeat split; reflexivity. Qed.

Lemma predictWebcam_reports (st : State) (t : Tick) (r : Report) :
  reportOf (predictWebcam st t) = Some r ->
  (lastVideoTime st =? currentTime t)%float = false /\
  detects t (ear r) (mar r) (headPose r) /\
  predictWebcam st t =
    Returned (fst (classify (ear r) (mar r) (headPose r)
                            (set_lastVideoTime (currentTime t) st)))
             (Some r).
Proof.
  unfold predictWebcam, detects, tickFeatures.
  destruct (lastVideoTime st =? currentTime t)%float; [discriminate|]. cbn.
  destruct (faceLandmarks t) as [[|lm rest]|]; try discriminate.
  destruct (features lm) as [[[e m] h]|]; [|discriminate].
  destruct (classify_features e m h (set_lastVideoTime (currentTime t) st))
    as (He & Hm & Hh).
  destruct (classify _ _ _ _) as [st' r'] eqn:E. cbn in *.
  intros [= <-]. subst e m h. rewrite E. repeat split; reflexivity.
Qed.

Lemma size_status (alerts : list string) :
  statusMatches (if (0 <? JsSet.size alerts)%nat then "DROWSY" else "SAFE") alerts.
Proof.
  unfold statusMatches. destruct alerts as [|a l]; cbn.
  - repeat split; intros; try reflexivity; try discriminate; congruence.
  - repeat split; intros; try reflexivity; try discriminate.
Qed.

Lemma predictWebcam_status (st : State) (t : Tick) (r : Report) :
  reportOf (predictWebcam st t) = Some r ->
  statusMatches (driverStatus r) (currentAlerts (stateOf (predictWebcam st t))).
Proof.
  intros H. destruct (predictWebcam_reports _ _ _ H) as (Ht & Hd & E).
  pose proof (predictWebcam_detects _ _ _ _ _ Ht Hd) as E'.
  rewrite E' in E. injection E as Hr. rewrite E'. cbn. rewrite <- Hr.
  rewrite classify_report. cbn. apply size_status.
Qed.

(** ** Runs *)

Lemma run_cons (st : State) (t : Tick) (ticks : list Tick) :
  run st (t :: ticks) = run (stateOf (predictWebcam st t)) ticks.
Proof. reflexivity. Qed.

Lemma run_app (st : State) (a b : list Tick) :
  run st (a ++ b) = run (run st a) b.
Proof. unfold run. apply fold_left_app. Qed.

Lemma frames_app (st : State) (a b : list Tick) :
  frames st (a ++ b) = frames st a ++ frames (run st a) b.
Proof.
  revert st; induction a as [|t a IH]; intros st; [reflexivity|].
  cbn [app frames]. rewrite IH. reflexivity.
Qed.

Lemma frames_length (st : State) (ticks : list Tick) :
  List.length (frames st ticks) = List.length ticks.
Proof.
  revert st; induction ticks as [|t ticks IH]; intros st; cbn;
    [|rewrite IH]; reflexivity.
Qed.

Lemma reachable_run (st : State) (ticks : list Tick) :
  reachable st -> reachable (run st ticks).
Proof.
  revert st; induction ticks as [|t ticks IH]; intros st H; [exact H|].
  rewrite run_cons. apply IH. now apply reach_frame.
Qed.

(** ** Overall driver status *)

Lemma lastReport_status (ticks : list Tick) :
  forall (st : State) (acc : option Report),
    (forall r, acc = Some r -> statusMatches (driverStatus r) (currentAlerts st)) ->
    forall r,
      fold_left (fun acc c => match reportOf c with Some r => Some r | None => acc end)
                (frames st ticks) acc = Some r ->
      statusMatches (driverStatus r) (currentAlerts (run st ticks)).
Proof.
  induction ticks as [|t ticks IH]; intros st acc Hacc r; cbn [frames fold_left].
  - apply Hacc.
  - rewrite run_cons. apply IH. intros r'.
    destruct (reportOf (predictWebcam st t)) as [r0|] eqn:E.
    + intros [= <-]. now apply predictWebcam_status.
    + intros ->. destruct (predictWebcam_silent _ _ E) as [Hc _].
      injection Hc as _ _ _ _ ->. now apply Hacc.
Qed.

(** C1. Whatever state the run starts in (the initial one included), once some
    frame has been reported, the [driverStatus] of the latest report is
    ['DROWSY'] exactly when [currentAlerts] has a member, and ['SAFE'] exactly
    when it has none. *)
Theorem driverStatus_drowsy_iff_alerts (st : State) (ticks : list Tick) (r : Report) :
  lastReport (frames st ticks) = Some r ->
  (driverStatus r = "DROWSY" <-> currentAlerts (run st ticks) <> []) /\
  (driverStatus r = "SAFE" <-> currentAlerts (run st ticks) = []).
Proof.
  intros H. apply (lastReport_status ticks st None); [discriminate | exact H].
Qed.

Lemma driverStatus_drowsy_iff_alerts_witness :
  exists r,
    lastReport (frames initialState (ticksOf (faceOf 0.10 0.85) 0 15)) = Some r /\
    driverStatus r = "DROWSY" /\
    ((driverStatus r = "DROWSY" <->
      currentAlerts (run initialState (ticksOf (faceOf 0.10 0.85) 0 15)) <> []) /\
     (driverStatus r = "SAFE" <->
      currentAlerts (run initialState (ticksOf (faceOf 0.10 0.85) 0 15)) = [])).
Proof.
  eexists. split; [vm_compute; reflexivity|]. split; [reflexivity|].
  apply (driverStatus_drowsy_iff_alerts initialState
           (ticksOf (faceOf 0.10 0.85) 0 15)).
  vm_compute. reflexivity.
Defined.

(** ** The two eye counters *)

(** C6. In every reachable state, [eyeClosedFrames] and
    [eyePartiallyClosedFrames] are not both greater than zero. *)
Theorem eye_counters_never_both_positive (st : State) :
  reachable st ->
  ~ (0 < eyeClosedFrames st /\ 0 < eyePartiallyClosedFrames st).
Proof.
  induction 1 as [|st t _ IH|st _ _].
  - cbn. lia.
  - destruct (reportOf (predictWebcam st t)) as [r|] eqn:E.
    + destruct (predictWebcam_reports _ _ _ E) as (_ & _ & ->). cbn [stateOf].
      destruct (classify_eye_counters (ear r) (mar r) (headPose r)
                  (set_lastVideoTime (currentTime t) st)) as [-> ->].
      repeat match goal with |- context [if ?b then _ else _] => destruct b end; lia.
    + destruct (predictWebcam_silent _ _ E) as [Hc _].
      injection Hc as -> -> _ _ _. exact IH.
  - cbn. lia.
Qed.

Lemma eye_counters_never_both_positive_witness :
  ~ (0 < eyeClosedFrames (run initialState (ticksOf (faceOf 0.10 0.85) 0 15)) /\
     0 < eyePartiallyClosedFrames (run initialState (ticksOf (faceOf 0.10 0.85) 0 15))).
Proof.
  apply (eye_counters_never_both_positive
           (run initialState (ticksOf (faceOf 0.10 0.85) 0 15))).
  apply reachable_run. apply reach_init.
Defined.

(** ** Reset *)

(** C8. [stopMonitoring] zeroes the four counters and empties the alert set
    from any state; a second call changes nothing; in the reset state the
    counters stay 0 and the set stays empty. *)
Theorem stopMonitoring_idempotent (st : State) :
  (eyeClosedFrames (stopMonitoring st) = 0 /\
   eyePartiallyClosedFrames (stopMonitoring st) = 0 /\
   yawnFrames (stopMonitoring st) = 0 /\
   headTurnedFrames (stopMonitoring st) = 0 /\
   currentAlerts (stopMonitoring st) = []) /\
  stopMonitoring (stopMonitoring st) = stopMonitoring st /\
  (core st = core initialState -> core (stopMonitoring st) = core st).
Proof.
  destruct st as [a b c d [|] l t]; repeat split; try reflexivity;
    intros ->; reflexivity.
Qed.

(** ** Runs of processed frames *)

Lemma predictWebcam_lastVideoTime (st : State) (t : Tick) :
  (lastVideoTime st =? currentTime t)%float = false ->
  lastVideoTime (stateOf (predictWebcam st t)) = currentTime t.
Proof.
  intros H. unfold predictWebcam. rewrite H. cbn [negb].
  destruct (faceLandmarks t) as [[|lm rest]|]; try reflexivity.
  destruct (features lm) as [[[e m] h]|]; [|reflexivity].
  pose proof (classify_lastVideoTime e m h (set_lastVideoTime (currentTime t) st)) as L.
  destruct (classify _ _ _ _) as [st' r]. exact L.
Qed.

Lemma advancing_app (last : float) (a b : list Tick) :
  advancing last (a ++ b) = advancing last a && advancing (lastTime last a) b.
Proof.
  revert last; induction a as [|t a IH]; intros last; [reflexivity|].
  cbn [app advancing]. rewrite IH, andb_assoc. reflexivity.
Qed.

Lemma run_lastVideoTime (ticks : list Tick) :
  forall st, advancing (lastVideoTime st) ticks = true ->
             lastVideoTime (run st ticks) = lastTime (lastVideoTime st) ticks.
Proof.
  induction ticks as [|t ticks IH]; intros st H; [reflexivity|].
  cbn [advancing] in H. apply andb_true_iff in H as [H1 H2].
  apply negb_true_iff in H1.
  rewrite run_cons, IH; rewrite (predictWebcam_lastVideoTime _ _ H1);
    [reflexivity | exact H2].
Qed.

Lemma frames_nth (ticks : list Tick) :
  forall st k,
    nth_error (frames st ticks) k =
    option_map (predictWebcam (run st (firstn k ticks))) (nth_error ticks k).
Proof.
  induction ticks as [|t ticks IH]; intros st [|k]; try reflexivity.
  cbn [frames nth_error firstn]. rewrite IH, run_cons. reflexivity.
Qed.

(** The tick at position [k] of an advancing run is processed: its video
    time differs from the one stored when it arrives. *)
Lemma advancing_nth (ticks : list Tick) (st : State) (k : nat) (t : Tick) :
  advancing (lastVideoTime st) ticks = true ->
  nth_error ticks k = Some t ->
  advancing (lastVideoTime st) (firstn k ticks) = true /\
  (lastVideoTime (run st (firstn k ticks)) =? currentTime t)%float = false.
Proof.
  intros Ha Hk.
  rewrite <- (firstn_skipn k ticks), advancing_app in Ha.
  apply andb_true_iff in Ha as [Ha Hb]. split; [exact Ha|].
  rewrite (run_lastVideoTime _ _ Ha).
  assert (Hs : skipn k ticks = t :: skipn (S k) ticks).
  { clear -Hk. revert k Hk; induction ticks as [|u ticks IH]; intros [|k] Hk;
      try discriminate.
    - now injection Hk as ->.
    - apply (IH k Hk). }
  rewrite Hs in Hb. cbn [advancing] in Hb.
  apply andb_true_iff in Hb as [Hb _]. now apply negb_true_iff in Hb.
Qed.

(** ** Closed eyes *)

Lemma closed_step (st : State) (t : Tick) :
  (lastVideoTime st =? currentTime t)%float = false ->
  closedEyes t ->
  eyeClosedFrames (stateOf (predictWebcam st t)) = eyeClosedFrames st + 1 /\
  (In EYES_CLOSED (currentAlerts (stateOf (predictWebcam st t))) <->
   In EYES_CLOSED (currentAlerts st) \/ CONSECUTIVE_FRAMES <= eyeClosedFrames st + 1) /\
  option_map eyeStatus (reportOf (predictWebcam st t)) =
    Some (if (CONSECUTIVE_FRAMES <=? eyeClosedFrames st + 1)%nat
          then "CLOSED" else "OPEN").
Proof.
  intros Hfresh (e & (m & h & Hd) & He).
  rewrite (predictWebcam_detects _ _ _ _ _ Hfresh Hd). cbn [stateOf reportOf option_map].
  set (st0 := set_lastVideoTime (currentTime t) st).
  destruct (classify_eye_counters e m h st0) as [-> _].
  rewrite classify_In_eye by now left.
  rewrite detectEyes_alerts, classify_report. cbn [eyeStatus].
  rewrite detectEyes_status, He. subst st0. cbn [set_lastVideoTime eyeClosedFrames currentAlerts].
  repeat split; try reflexivity.
  - destruct (CONSECUTIVE_FRAMES <=? eyeClosedFrames st + 1)%nat eqn:E.
    + apply Nat.leb_le in E. rewrite add_In. tauto.
    + tauto.
  - destruct (CONSECUTIVE_FRAMES <=? eyeClosedFrames st + 1)%nat eqn:E.
    + apply Nat.leb_le in E. rewrite add_In. tauto.
    + apply Nat.leb_gt in E. intuition lia.
Qed.

Lemma closed_run (ticks : list Tick) :
  forall st,
    advancing (lastVideoTime st) ticks = true ->
    Forall closedEyes ticks ->
    eyeClosedFrames (run st ticks) = eyeClosedFrames st + List.length ticks /\
    (In EYES_CLOSED (currentAlerts (run st ticks)) <->
     In EYES_CLOSED (currentAlerts st) \/
     (0 < List.length ticks /\
      CONSECUTIVE_FRAMES <= eyeClosedFrames st + List.length ticks)).
Proof.
  induction ticks as [|t ticks IH]; intros st Ha Hc.
  - cbn. split; [lia | intuition lia].
  - cbn [advancing] in Ha. apply andb_true_iff in Ha as [H1 H2].
    apply negb_true_iff in H1. inversion Hc as [|? ? Ht Hts]; subst.
    destruct (closed_step st t H1 Ht) as (Hn & Hin & _).
    rewrite <- (predictWebcam_lastVideoTime _ _ H1) in H2.
    destruct (IH _ H2 Hts) as [IHn IHin].
    rewrite run_cons, IHn, IHin, Hn, Hin. cbn [List.length].
    split; [lia | intuition lia].
Qed.

Lemma closed_frame_at (ticks : list Tick) (st : State) (k : nat) (c : Completion) :
  advancing (lastVideoTime st) ticks = true ->
  Forall closedEyes ticks ->
  nth_error (frames st ticks) k = Some c ->
  option_map eyeStatus (reportOf c) =
    Some (if (CONSECUTIVE_FRAMES <=? eyeClosedFrames st + S k)%nat
          then "CLOSED" else "OPEN") /\
  (In EYES_CLOSED (currentAlerts (stateOf c)) <->
   In EYES_CLOSED (currentAlerts st) \/ CONSECUTIVE_FRAMES <= eyeClosedFrames st + S k).
Proof.
  intros Ha Hc Hk. rewrite frames_nth in Hk.
  destruct (nth_error ticks k) as [t|] eqn:Ht; [|discriminate].
  injection Hk as <-.
  destruct (advancing_nth _ _ _ _ Ha Ht) as [Hpre Hfresh].
  assert (Hlen : List.length (firstn k ticks) = k).
  { rewrite length_firstn. apply Nat.min_l.
    apply Nat.lt_le_incl, nth_error_Some. congruence. }
  assert (Hcp : Forall closedEyes (firstn k ticks)).
  { rewrite <- (firstn_skipn k ticks) in Hc. now apply Forall_app in Hc. }
  assert (Hct : closedEyes t).
  { rewrite Forall_forall in Hc. apply Hc. eapply nth_error_In; eassumption. }
  destruct (closed_run _ _ Hpre Hcp) as [Rn Rin]. rewrite Hlen in Rn, Rin.
  destruct (closed_step _ _ Hfresh Hct) as (Sn & Sin & Sst).
  rewrite Sst, Sin, Rin, Rn. replace (eyeClosedFrames st + k + 1) with
    (eyeClosedFrames st + S k) by lia.
  split; [reflexivity | intuition lia].
Qed.

(** A detected frame whose EAR is below neither threshold. *)
Lemma open_step (st : State) (t : Tick) (e : float) :
  (lastVideoTime st =? currentTime t)%float = false ->
  hasEAR e t ->
  (e <? EAR_THRESHOLD_PARTIALLY)%float = false ->
  (e <? EAR_THRESHOLD_CLOSED)%float = false ->
  option_map eyeStatus (reportOf (predictWebcam st t)) = Some "OPEN" /\
  ~ In EYES_CLOSED (currentAlerts (stateOf (predictWebcam st t))) /\
  ~ In EYES_PARTIALLY_CLOSED (currentAlerts (stateOf (predictWebcam st t))).
Proof.
  intros Hfresh (m & h & Hd) Hp Hc.
  rewrite (predictWebcam_detects _ _ _ _ _ Hfresh Hd). cbn [stateOf reportOf option_map].
  rewrite !classify_In_eye by (now left + now right).
  rewrite detectEyes_alerts, classify_report. cbn [eyeStatus].
  rewrite detectEyes_status, Hp, Hc. rewrite !delete_In.
  repeat split; tauto.
Qed.

(** C2. From the initial state, fifteen consecutive detected frames with
    [ear = 0.10] report ['OPEN'] and keep the eyes-closed alert off on frames 1
    to 14, and report ['CLOSED'] with the alert on at frame 15; a sixteenth frame
    with [ear = 0.50] reports ['OPEN'] and has the alert off at once. *)
Theorem eyes_closed_alert_on_frame_15 (ticks : list Tick) (t16 : Tick) :
  List.length ticks = 15 ->
  Forall (hasEAR 0.10) ticks ->
  hasEAR 0.50 t16 ->
  advancing (lastVideoTime initialState) (ticks ++ [t16]) = true ->
  (forall k c,
      k < 14 -> nth_error (frames initialState (ticks ++ [t16])) k = Some c ->
      option_map eyeStatus (reportOf c) = Some "OPEN" /\
      ~ In EYES_CLOSED (currentAlerts (stateOf c))) /\
  (exists c15,
      nth_error (frames initialState (ticks ++ [t16])) 14 = Some c15 /\
      option_map eyeStatus (reportOf c15) = Some "CLOSED" /\
      In EYES_CLOSED (currentAlerts (stateOf c15))) /\
  (exists c16,
      nth_error (frames initialState (ticks ++ [t16])) 15 = Some c16 /\
      option_map eyeStatus (reportOf c16) = Some "OPEN" /\
      ~ In EYES_CLOSED (currentAlerts (stateOf c16))).
Proof.
  intros Hlen Hears H16 Ha.
  rewrite advancing_app in Ha. apply andb_true_iff in Ha as [Ha Hb].
  assert (Hc : Forall closedEyes ticks).
  { eapply Forall_impl; [|exact Hears]. intros t Ht. exists 0.10%float.
    split; [exact Ht | reflexivity]. }
  rewrite frames_app.
  assert (Hfl : List.length (frames initialState ticks) = 15)
    by now rewrite frames_length.
  split; [|split].
  - intros k c Hk Hnth. rewrite nth_error_app1 in Hnth by lia.
    destruct (closed_frame_at _ _ _ _ Ha Hc Hnth) as [Hst Hin].
    cbn [initialState eyeClosedFrames currentAlerts In] in Hst, Hin.
    destruct (Nat.leb_spec CONSECUTIVE_FRAMES (0 + S k)) as [L|L];
      [unfold CONSECUTIVE_FRAMES in L; lia|].
    split; [exact Hst|]. rewrite Hin. unfold CONSECUTIVE_FRAMES. lia.
  - destruct (nth_error (frames initialState ticks) 14) as [c|] eqn:Hnth.
    2:{ apply nth_error_None in Hnth. lia. }
    exists c. rewrite nth_error_app1 by lia. split; [exact Hnth|].
    destruct (closed_frame_at _ _ _ _ Ha Hc Hnth) as [Hst Hin].
    split; [exact Hst|]. apply Hin. right. cbn. unfold CONSECUTIVE_FRAMES. lia.
  - exists (predictWebcam (run initialState ticks) t16).
    rewrite nth_error_app2 by lia. rewrite Hfl. cbn [Nat.sub frames nth_error].
    split; [reflexivity|].
    cbn [advancing] in Hb. rewrite andb_true_r in Hb. apply negb_true_iff in Hb.
    rewrite <- (run_lastVideoTime _ _ Ha) in Hb.
    destruct (open_step _ _ _ Hb H16 eq_refl eq_refl) as (Hst & Hin & _).
    split; assumption.
Qed.

Lemma eyes_closed_alert_on_frame_15_witness :
  let ticks := ticksOf (faceOf 0.10 0) 0 15 in
  let t16 := mkTick 16 (Some [faceOf 0.50 0]) in
  exists c15,
    nth_error (frames initialState (ticks ++ [t16])) 14 = Some c15 /\
    option_map eyeStatus (reportOf c15) = Some "CLOSED" /\
    In EYES_CLOSED (currentAlerts (stateOf c15)).
Proof.
  apply (eyes_closed_alert_on_frame_15
           (ticksOf (faceOf 0.10 0) 0 15) (mkTick 16 (Some [faceOf 0.50 0]))).
  - reflexivity.
  - repeat constructor; do 2 eexists; vm_compute; reflexivity.
  - do 2 eexists; vm_compute; reflexivity.
  - vm_compute; reflexivity.
Defined.

(** ** Frames without a face *)

Lemma noDetection_silent (st : State) (t : Tick) :
  noDetection t -> reportOf (predictWebcam st t) = None.
Proof.
  unfold predictWebcam. intros [H | H]; rewrite H;
    destruct (negb _); reflexivity.
Qed.

(** C3. A frame without face landmarks reports nothing and leaves the four
    counters and the alert set as they were, in any state.  With one such frame
    anywhere inside a run of closed-eye frames from the initial state,
    [eyeClosedFrames] counts exactly the detected frames and the eyes-closed
    alert is on exactly when fifteen of them have been seen. *)
Theorem no_detection_freezes_counters
  (st : State) (gap : Tick) (before after : list Tick) :
  noDetection gap ->
  (reportOf (predictWebcam st gap) = None /\
   eyeClosedFrames (stateOf (predictWebcam st gap)) = eyeClosedFrames st /\
   eyePartiallyClosedFrames (stateOf (predictWebcam st gap)) =
     eyePartiallyClosedFrames st /\
   yawnFrames (stateOf (predictWebcam st gap)) = yawnFrames st /\
   headTurnedFrames (stateOf (predictWebcam st gap)) = headTurnedFrames st /\
   currentAlerts (stateOf (predictWebcam st gap)) = currentAlerts st) /\
  (Forall closedEyes before ->
   Forall closedEyes after ->
   advancing (lastVideoTime initialState) (before ++ gap :: after) = true ->
   eyeClosedFrames (run initialState (before ++ gap :: after)) =
     List.length before + List.length after /\
   (In EYES_CLOSED (currentAlerts (run initialState (before ++ gap :: after))) <->
    CONSECUTIVE_FRAMES <= List.length before + List.length after)).
Proof.
  intros Hgap. split.
  - pose proof (noDetection_silent st gap Hgap) as Hs.
    destruct (predictWebcam_silent _ _ Hs) as [Hc _].
    injection Hc as -> -> -> -> ->. repeat split; [exact Hs | reflexivity ..].
  - intros Hb Hafter Ha.
    rewrite advancing_app in Ha. apply andb_true_iff in Ha as [Ha1 Ha2].
    cbn [advancing] in Ha2. apply andb_true_iff in Ha2 as [Hfresh Ha2].
    apply negb_true_iff in Hfresh.
    rewrite <- (run_lastVideoTime _ _ Ha1) in Hfresh.
    rewrite <- (predictWebcam_lastVideoTime _ _ Hfresh) in Ha2.
    destruct (closed_run _ _ Ha1 Hb) as [Bn Bin].
    destruct (closed_run _ _ Ha2 Hafter) as [An Ain].
    pose proof (noDetection_silent (run initialState before) gap Hgap) as Hs.
    destruct (predictWebcam_silent _ _ Hs) as [Hc _].
    injection Hc as Hc1 _ _ _ Hc5.
    rewrite run_app, run_cons, An, Ain, Hc1, Hc5, Bn, Bin.
    cbn [initialState eyeClosedFrames currentAlerts In].
    unfold CONSECUTIVE_FRAMES. lia.
Qed.

Lemma no_detection_freezes_counters_witness :
  let before := ticksOf (faceOf 0.10 0) 0 10 in
  let gap := mkTick 11 (Some []) in
  let after := ticksOf (faceOf 0.10 0) 11 5 in
  eyeClosedFrames (run initialState (before ++ gap :: after)) = 15 /\
  (In EYES_CLOSED (currentAlerts (run initialState (before ++ gap :: after))) <->
   CONSECUTIVE_FRAMES <= 15).
Proof.
  refine (proj2 (no_detection_freezes_counters initialState
                   (mkTick 11 (Some [])) (ticksOf (faceOf 0.10 0) 0 10)
                   (ticksOf (faceOf 0.10 0) 11 5) _) _ _ _).
  - right; reflexivity.
  - repeat (apply Forall_cons;
            [exists 0.10%float; split;
             [do 2 eexists; vm_compute; reflexivity | reflexivity]|]).
    apply Forall_nil.
  - repeat (apply Forall_cons;
            [exists 0.10%float; split;
             [do 2 eexists; vm_compute; reflexivity | reflexivity]|]).
    apply Forall_nil.
  - vm_compute; reflexivity.
Defined.

(** ** Yawning *)

Lemma yawn_step (st : State) (t : Tick) (m : float) (v : string) :
  (lastVideoTime st =? currentTime t)%float = false ->
  hasMAR m t ->
  (MAR_THRESHOLD_YAWN <? m)%float = true ->
  v = YAWNING_DETECTED \/ v = EXCESSIVE_YAWNING ->
  yawnFrames (stateOf (predictWebcam st t)) = yawnFrames st + 1 /\
  (In v (currentAlerts (stateOf (predictWebcam st t))) <->
   In v (currentAlerts st) \/
   (CONSECUTIVE_FRAMES <= yawnFrames st + 1 /\
    v = if (MAR_THRESHOLD_ALERT <? m)%float
        then EXCESSIVE_YAWNING else YAWNING_DETECTED)).
Proof.
  intros Hfresh (e & h & Hd) Hm Hv.
  rewrite (predictWebcam_detects _ _ _ _ _ Hfresh Hd). cbn [stateOf].
  rewrite classify_yawnFrames, (classify_In_yawn v) by exact Hv.
  rewrite Hm. split; reflexivity.
Qed.

Lemma yawn_run (ticks : list Tick) (v : string) :
  v = YAWNING_DETECTED \/ v = EXCESSIVE_YAWNING ->
  forall st,
    advancing (lastVideoTime st) ticks = true ->
    Forall openMouth ticks ->
    yawnFrames (run st ticks) = yawnFrames st + List.length ticks /\
    (yawnFrames st + List.length ticks < CONSECUTIVE_FRAMES ->
     (In v (currentAlerts (run st ticks)) <-> In v (currentAlerts st))).
Proof.
  intros Hv. induction ticks as [|t ticks IH]; intros st Ha Hy.
  - cbn. split; [lia | reflexivity].
  - cbn [advancing] in Ha. apply andb_true_iff in Ha as [H1 H2].
    apply negb_true_iff in H1. inversion Hy as [|? ? (m & Hm & Hgt) Hts]; subst.
    destruct (yawn_step st t m v H1 Hm Hgt Hv) as [Hn Hin].
    rewrite <- (predictWebcam_lastVideoTime _ _ H1) in H2.
    destruct (IH _ H2 Hts) as [IHn IHin].
    rewrite run_cons, IHn, Hn. cbn [List.length]. split; [lia|].
    intros Hlt. rewrite IHin, Hin by lia. intuition lia.
Qed.

(** The yawn alert switched on at the fifteenth open-mouth frame is chosen by
    that frame's own MAR. *)
Lemma yawn_kind_by_current_mar (before : list Tick) (t : Tick) (m : float) :
  List.length before = 14 ->
  Forall openMouth before ->
  hasMAR m t ->
  (MAR_THRESHOLD_YAWN <? m)%float = true ->
  advancing (lastVideoTime initialState) (before ++ [t]) = true ->
  if (MAR_THRESHOLD_ALERT <? m)%float
  then In EXCESSIVE_YAWNING (currentAlerts (run initialState (before ++ [t]))) /\
       ~ In YAWNING_DETECTED (currentAlerts (run initialState (before ++ [t])))
  else In YAWNING_DETECTED (currentAlerts (run initialState (before ++ [t]))) /\
       ~ In EXCESSIVE_YAWNING (currentAlerts (run initialState (before ++ [t]))).
Proof.
  intros Hlen Hy Hm Hgt Ha.
  rewrite advancing_app in Ha. apply andb_true_iff in Ha as [Ha Hb].
  cbn [advancing] in Hb. rewrite andb_true_r in Hb. apply negb_true_iff in Hb.
  rewrite <- (run_lastVideoTime _ _ Ha) in Hb.
  rewrite run_app. cbn [run fold_left].
  assert (Hrun : forall v, v = YAWNING_DETECTED \/ v = EXCESSIVE_YAWNING ->
            (In v (currentAlerts (stateOf (predictWebcam (run initialState before) t)))
             <-> v = if (MAR_THRESHOLD_ALERT <? m)%float
                     then EXCESSIVE_YAWNING else YAWNING_DETECTED)).
  { intros v Hv.
    destruct (yawn_run before v Hv initialState Ha Hy) as [Rn Rin].
    destruct (yawn_step _ t m v Hb Hm Hgt Hv) as [_ Sin].
    rewrite Sin, Rin, Rn, Hlen by (rewrite Hlen; cbn; unfold CONSECUTIVE_FRAMES; lia).
    cbn. unfold CONSECUTIVE_FRAMES. intuition lia. }
  destruct (MAR_THRESHOLD_ALERT <? m)%float.
  - rewrite (Hrun EXCESSIVE_YAWNING), (Hrun YAWNING_DETECTED) by tauto.
    split; [reflexivity | discriminate].
  - rewrite (Hrun EXCESSIVE_YAWNING), (Hrun YAWNING_DETECTED) by tauto.
    split; [reflexivity | discriminate].
Qed.

Lemma split_last (ticks : list Tick) (n : nat) :
  List.length ticks = S n ->
  exists before t, ticks = before ++ [t] /\ List.length before = n.
Proof.
  intros H. destruct (exists_last (l := ticks)) as (before & t & ->).
  - intros ->. discriminate.
  - exists before, t. split; [reflexivity|].
    rewrite length_app in H. cbn in H. lia.
Qed.

Lemma hasMAR_openMouth (m : float) (ticks : list Tick) :
  (MAR_THRESHOLD_YAWN <? m)%float = true ->
  Forall (hasMAR m) ticks -> Forall openMouth ticks.
Proof.
  intros Hm. apply Forall_impl. intros t Ht. exists m. split; assumption.
Qed.

(** C5. From the initial state, fifteen consecutive detected frames with
    [mar = 0.85] switch on the excessive-yawning alert and not the
    yawning-detected one; fifteen with [mar = 0.65] switch on yawning-detected
    (and not excessive-yawning).  The kind is chosen by comparing the MAR of
    the fifteenth frame itself with [MAR_THRESHOLD_ALERT], whatever MARs above
    [MAR_THRESHOLD_YAWN] the fourteen frames before it had; in any state, a
    processed frame with MAR above [MAR_THRESHOLD_YAWN] adds a yawn alert only
    when the counter reaches [CONSECUTIVE_FRAMES], and then the kind its own
    MAR selects. *)
Theorem yawn_alert_kind_after_15_frames (ticks : list Tick) :
  List.length ticks = 15 ->
  advancing (lastVideoTime initialState) ticks = true ->
  (Forall (hasMAR 0.85) ticks ->
   In EXCESSIVE_YAWNING (currentAlerts (run initialState ticks)) /\
   ~ In YAWNING_DETECTED (currentAlerts (run initialState ticks))) /\
  (Forall (hasMAR 0.65) ticks ->
   In YAWNING_DETECTED (currentAlerts (run initialState ticks)) /\
   ~ In EXCESSIVE_YAWNING (currentAlerts (run initialState ticks))) /\
  (forall before t m,
      ticks = before ++ [t] ->
      Forall openMouth before ->
      hasMAR m t ->
      (MAR_THRESHOLD_YAWN <? m)%float = true ->
      if (MAR_THRESHOLD_ALERT <? m)%float
      then In EXCESSIVE_YAWNING (currentAlerts (run initialState ticks)) /\
           ~ In YAWNING_DETECTED (currentAlerts (run initialState ticks))
      else In YAWNING_DETECTED (currentAlerts (run initialState ticks)) /\
           ~ In EXCESSIVE_YAWNING (currentAlerts (run initialState ticks))) /\
  (forall st t m v,
      (lastVideoTime st =? currentTime t)%float = false ->
      hasMAR m t ->
      (MAR_THRESHOLD_YAWN <? m)%float = true ->
      v = YAWNING_DETECTED \/ v = EXCESSIVE_YAWNING ->
      (In v (currentAlerts (stateOf (predictWebcam st t))) <->
       In v (currentAlerts st) \/
       (CONSECUTIVE_FRAMES <= yawnFrames st + 1 /\
        v = if (MAR_THRESHOLD_ALERT <? m)%float
            then EXCESSIVE_YAWNING else YAWNING_DETECTED))).
Proof.
  intros Hlen Ha.
  destruct (split_last ticks 14 Hlen) as (before & t & -> & Hb).
  split; [|split; [|split]].
  - intros H. apply Forall_app in H as [H1 H2]. inversion H2 as [|? ? Ht _]; subst.
    apply (yawn_kind_by_current_mar before t 0.85 Hb
             (hasMAR_openMouth 0.85 before eq_refl H1) Ht eq_refl Ha).
  - intros H. apply Forall_app in H as [H1 H2]. inversion H2 as [|? ? Ht _]; subst.
    apply (yawn_kind_by_current_mar before t 0.65 Hb
             (hasMAR_openMouth 0.65 before eq_refl H1) Ht eq_refl Ha).
  - intros before' t' m E Hy Hm Hgt.
    apply app_inj_tail in E as [<- <-].
    apply (yawn_kind_by_current_mar before t m Hb Hy Hm Hgt Ha).
  - intros st t' m v Hfresh Hm Hgt Hv.
    apply (yawn_step st t' m v Hfresh Hm Hgt Hv).
Qed.

Lemma yawn_alert_kind_after_15_frames_witness :
  In EXCESSIVE_YAWNING
     (currentAlerts (run initialState (ticksOf (faceOf 0.5 0.85) 0 15))) /\
  ~ In YAWNING_DETECTED
      (currentAlerts (run initialState (ticksOf (faceOf 0.5 0.85) 0 15))).
Proof.
  refine (proj1 (yawn_alert_kind_after_15_frames
                   (ticksOf (faceOf 0.5 0.85) 0 15) _ _) _).
  - reflexivity.
  - vm_compute; reflexivity.
  - repeat (apply Forall_cons; [do 2 eexists; vm_compute; reflexivity|]).
    apply Forall_nil.
Defined.

(** ** The head-yaw ratio *)

Lemma calculateHeadPose_distances (landmarks : list Landmark) :
  calculateHeadPose landmarks =
  let* d := headDistances landmarks in
  Some {| yawRatio := (fst d / safeRightDist (snd d))%float;
          pitch := 0%float; roll := 0%float |}.
Proof.
  unfold calculateHeadPose, headDistances.
  destruct (at_index landmarks 1); [|reflexivity]. cbn [bind].
  destruct (at_index landmarks 234); [|reflexivity]. cbn [bind].
  destruct (at_index landmarks 454); reflexivity.
Qed.

Lemma headDistances_abs (landmarks : list Landmark) (l r : float) :
  headDistances landmarks = Some (l, r) ->
  exists a b, l = PrimFloat.abs a /\ r = PrimFloat.abs b.
Proof.
  unfold headDistances.
  destruct (at_index landmarks 1); [|discriminate]. cbn [bind].
  destruct (at_index landmarks 234); [|discriminate]. cbn [bind].
  destruct (at_index landmarks 454); [|discriminate]. cbn [bind].
  intros [= <- <-]. eauto.
Qed.

Lemma eqb_zero (r : float) :
  (r =? 0)%float = true -> exists s, Prim2SF r = S754_zero s.
Proof.
  rewrite eqb_spec. change (Prim2SF 0) with (S754_zero false).
  destruct (Prim2SF r) as [s|[|]| |[|] m e]; cbn; try discriminate. eauto.
Qed.

Lemma zero_below_epsilon (r : float) :
  (r =? 0)%float = true -> (r <? DIVISION_EPSILON)%float = true.
Proof.
  intros H. destruct (eqb_zero r H) as [s Hs].
  rewrite ltb_spec, Hs. reflexivity.
Qed.

Lemma above_epsilon_nonzero (r : float) :
  (DIVISION_EPSILON <=? r)%float = true -> (r =? 0)%float = false.
Proof.
  intros H. destruct (r =? 0)%float eqn:E; [|reflexivity].
  destruct (eqb_zero r E) as [s Hs].
  rewrite leb_spec, Hs in H. discriminate H.
Qed.

Lemma abs_eqb_eq (a b : float) :
  (PrimFloat.abs a =? PrimFloat.abs b)%float = true ->
  is_zero (PrimFloat.abs b) = false ->
  PrimFloat.abs a = PrimFloat.abs b.
Proof.
  intros Heq Hz. apply Prim2SF_inj. revert Heq Hz.
  unfold is_zero. rewrite !eqb_spec, !abs_spec.
  change (Prim2SF zero) with (S754_zero false).
  destruct (Prim2SF a) as [sa|sa| |sa ma ea], (Prim2SF b) as [sb|sb| |sb mb eb];
    cbn; try discriminate; try reflexivity.
  unfold SFeqb. cbn.
  destruct (ea ?= eb)%Z eqn:E; try discriminate.
  apply Z.compare_eq in E. subst eb.
  destruct (Pos.compare_cont Eq ma mb) eqn:M; try discriminate.
  apply Pos.compare_eq in M. subst mb. reflexivity.
Qed.

Lemma abs_zero (a : float) :
  is_zero (PrimFloat.abs a) = true -> PrimFloat.abs a = 0%float.
Proof.
  intros H. apply Prim2SF_inj. destruct (eqb_zero _ H) as [s Hs].
  rewrite abs_spec in Hs |- *.
  destruct (Prim2SF a) as [sa|sa| |sa ma ea]; try discriminate. reflexivity.
Qed.

Lemma eqb_zero_r (l r : float) :
  (l =? r)%float = true -> is_zero r = true -> is_zero l = true.
Proof.
  unfold is_zero. intros H Hr. destruct (eqb_zero r Hr) as [s Hs].
  rewrite eqb_spec in H |- *. rewrite Hs in H.
  change (Prim2SF zero) with (S754_zero false).
  destruct (Prim2SF l) as [sl|[|]| |[|] ml el]; cbn in *; try discriminate;
    reflexivity.
Qed.

(** C7, as amended.  When [leftDist == rightDist] and the common value is
    finite and not zero, the yaw ratio is exactly 1; when it is zero (both
    cheeks at the nose's [x]) the guard of line 131 makes the ratio 0. *)
Theorem symmetric_cheeks_yaw_ratio (landmarks : list Landmark) (leftDist rightDist : float) :
  headDistances landmarks = Some (leftDist, rightDist) ->
  (leftDist =? rightDist)%float = true ->
  (is_finite rightDist = true -> is_zero rightDist = false ->
   option_map yawRatio (calculateHeadPose landmarks) = Some 1%float) /\
  (is_zero rightDist = true ->
   option_map yawRatio (calculateHeadPose landmarks) = Some 0%float).
Proof.
  intros Hd Heq. rewrite calculateHeadPose_distances, Hd. cbn.
  destruct (headDistances_abs _ _ _ Hd) as (a & b & -> & ->).
  split.
  - intros Hf Hz. rewrite (abs_eqb_eq a b Heq Hz).
    unfold safeRightDist. unfold is_zero in Hz.
    change zero with 0%float in Hz. rewrite Hz.
    now rewrite div_self.
  - intros Hz. pose proof (eqb_zero_r _ _ Heq Hz) as Hl.
    rewrite (abs_zero a Hl), (abs_zero b Hz). reflexivity.
Qed.

Lemma symmetric_cheeks_yaw_ratio_witness :
  option_map yawRatio (calculateHeadPose (faceOf 0.3 0)) = Some 1%float.
Proof.
  refine (proj1 (symmetric_cheeks_yaw_ratio (faceOf 0.3 0) 0.25 0.25 _ _) _ _);
    vm_compute; reflexivity.
Defined.

(** C7 as stated fails: with both cheeks at the nose's [x] the two distances
    are equal (both 0) and the ratio is 0, not 1. *)
Lemma symmetric_cheeks_at_nose_yaw_zero :
  headDistances (sampleFace 0 1 0 1 0.5 0.5 0.5) = Some (0%float, 0%float) /\
  (0 =? 0)%float = true /\
  option_map yawRatio (calculateHeadPose (sampleFace 0 1 0 1 0.5 0.5 0.5))
    = Some 0%float /\
  option_map yawRatio (calculateHeadPose (sampleFace 0 1 0 1 0.5 0.5 0.5))
    <> Some 1%float.
Proof.
  repeat split; try (vm_compute; reflexivity).
  intros H. float_neq H.
Qed.

(** C4, as amended.  On a frame that has the nose and cheek landmarks,
    [calculateHeadPose] never throws and returns [leftDist / rightDist], with
    [rightDist] replaced by 0.001 only when it is exactly zero.  This is the
    specification's [leftDist / max(rightDist, 0.001)] whenever [rightDist] is
    zero or at least 0.001. *)
Theorem yaw_ratio_guards_exact_zero
  (landmarks : list Landmark) (leftDist rightDist : float) :
  headDistances landmarks = Some (leftDist, rightDist) ->
  calculateHeadPose landmarks <> None /\
  option_map yawRatio (calculateHeadPose landmarks) =
    Some (leftDist / (if (rightDist =? 0)%float then 0.001 else rightDist))%float /\
  ((rightDist =? 0)%float = true \/ (DIVISION_EPSILON <=? rightDist)%float = true ->
   option_map yawRatio (calculateHeadPose landmarks) = headYawRatio_spec landmarks).
Proof.
  intros Hd. rewrite calculateHeadPose_distances. unfold headYawRatio_spec.
  rewrite Hd. cbn. split; [discriminate|]. split; [reflexivity|].
  unfold safeRightDist, fmax. intros [Hz | Hge].
  - rewrite Hz, (zero_below_epsilon rightDist Hz). reflexivity.
  - rewrite (above_epsilon_nonzero rightDist Hge),
      (leb_ltb DIVISION_EPSILON rightDist Hge). reflexivity.
Qed.

Lemma yaw_ratio_guards_exact_zero_witness :
  option_map yawRatio (calculateHeadPose (sampleFace 0 1 0 1 0.5 0.4 0.5)) =
  headYawRatio_spec (sampleFace 0 1 0 1 0.5 0.4 0.5).
Proof.
  refine (proj2 (proj2 (yaw_ratio_guards_exact_zero
                          (sampleFace 0 1 0 1 0.5 0.4 0.5)
                          0.099999999999999978 0 _)) _).
  - vm_compute; reflexivity.
  - left; reflexivity.
Defined.

(** C4 as stated fails: a [rightDist] strictly between 0 and 0.001 is used as
    it is, so the ratio is not [leftDist / max(rightDist, 0.001)]. *)
Lemma near_zero_rightDist_not_replaced :
  (exists l r,
      headDistances (sampleFace 0 1 0 1 0.5 0.4 0.5005) = Some (l, r) /\
      (r <? DIVISION_EPSILON)%float = true /\ (r =? 0)%float = false) /\
  option_map yawRatio (calculateHeadPose (sampleFace 0 1 0 1 0.5 0.4 0.5005)) <>
  headYawRatio_spec (sampleFace 0 1 0 1 0.5 0.4 0.5005).
Proof.
  split.
  - do 2 eexists. split; [vm_compute; reflexivity|]. split; reflexivity.
  - intros H. vm_compute in H. float_neq H.
Qed.

(** ** Which distances are three-dimensional *)

Lemma calculateHeadPose_x_only (landmarks landmarks' : list Landmark) :
  (forall i, In i [1; 234; 454] ->
             option_map x (at_index landmarks i) = option_map x (at_index landmarks' i)) ->
  calculateHeadPose landmarks = calculateHeadPose landmarks'.
Proof.
  intros H.
  pose proof (H 1 ltac:(cbn; tauto)) as H1.
  pose proof (H 234 ltac:(cbn; tauto)) as H2.
  pose proof (H 454 ltac:(cbn; tauto)) as H3.
  unfold calculateHeadPose.
  destruct (at_index landmarks 1) as [n|], (at_index landmarks' 1) as [n'|];
    try discriminate; [|reflexivity].
  destruct (at_index landmarks 234) as [l|], (at_index landmarks' 234) as [l'|];
    try discriminate; [|reflexivity].
  destruct (at_index landmarks 454) as [r|], (at_index landmarks' 454) as [r'|];
    try discriminate; [|reflexivity].
  cbn in *. injection H1 as ->. injection H2 as ->. injection H3 as ->.
  reflexivity.
Qed.

(** C9, as amended.  [euclideanDistance] is the 3D distance
    [sqrt(dx*dx + dy*dy + dz*dz)], and every distance inside EAR and MAR is an
    [euclideanDistance] between two landmarks (moving a lip landmark in [z]
    alone changes MAR).  The head-yaw ratio uses no such distance: it depends
    on the [x] coordinates of landmarks 1, 234 and 454 only. *)
Theorem distances_3d_for_ear_and_mar_only (landmarks landmarks' : list Landmark) :
  (forall p q,
      euclideanDistance p q =
      PrimFloat.sqrt ((x p - x q) * (x p - x q) + (y p - y q) * (y p - y q)
                      + (z p - z q) * (z p - z q))%float) /\
  calculateEAR landmarks =
    (let* lv1 := distanceAt landmarks 160 144 in
     let* lv2 := distanceAt landmarks 158 153 in
     let* lh := distanceAt landmarks 33 133 in
     let* rv1 := distanceAt landmarks 385 380 in
     let* rv2 := distanceAt landmarks 387 373 in
     let* rh := distanceAt landmarks 362 263 in
     Some (((lv1 + lv2) / (2 * lh) + (rv1 + rv2) / (2 * rh)) / 2)%float) /\
  calculateMAR landmarks =
    (let* v := distanceAt landmarks 13 14 in
     let* h := distanceAt landmarks 78 308 in
     Some (v / h)%float) /\
  (calculateMAR (faceOf 0.3 0.3) = Some 0.3%float /\
   calculateMAR (setAt 13 (mkLandmark 0 0.3 0.4) (faceOf 0.3 0.3)) = Some 0.5%float) /\
  ((forall i, In i [1; 234; 454] ->
              option_map x (at_index landmarks i) = option_map x (at_index landmarks' i)) ->
   calculateHeadPose landmarks = calculateHeadPose landmarks').
Proof.
  split; [reflexivity|]. split; [reflexivity|]. split; [reflexivity|].
  split; [split; vm_compute; reflexivity|].
  apply calculateHeadPose_x_only.
Qed.

Lemma distances_3d_for_ear_and_mar_only_witness :
  calculateHeadPose (faceOf 0.3 0.3) =
  calculateHeadPose (setAt 234 (mkLandmark 0.25 0.9 0.3) (faceOf 0.3 0.3)).
Proof.
  refine (proj2 (proj2 (proj2 (proj2
            (distances_3d_for_ear_and_mar_only
               (faceOf 0.3 0.3)
               (setAt 234 (mkLandmark 0.25 0.9 0.3) (faceOf 0.3 0.3)))))) _).
  intros i [<- | [<- | [<- | []]]]; vm_compute; reflexivity.
Defined.

(** C9 as stated fails for the head-yaw ratio: with the left cheek away from
    the nose in [y] and [z] as well, [leftDist] is the [x] difference 0.25 and
    not the 3D distance between the two landmarks, and the ratio is not the one
    3D distances would give. *)
Lemma head_yaw_distance_is_not_3d :
  (exists l r d,
      headDistances (setAt 234 (mkLandmark 0.25 0.9 0.3) (faceOf 0.3 0.3)) = Some (l, r) /\
      distanceAt (setAt 234 (mkLandmark 0.25 0.9 0.3) (faceOf 0.3 0.3)) 1 234 = Some d /\
      (l =? 0.25)%float = true /\ (l <? d)%float = true) /\
  option_map yawRatio
    (calculateHeadPose (setAt 234 (mkLandmark 0.25 0.9 0.3) (faceOf 0.3 0.3))) <>
  headYawRatio_3d (setAt 234 (mkLandmark 0.25 0.9 0.3) (faceOf 0.3 0.3)).
Proof.
  split.
  - do 3 eexists. split; [vm_compute; reflexivity|].
    split; [vm_compute; reflexivity|]. split; reflexivity.
  - intros H. vm_compute in H. float_neq H.
Qed.

(** ** The partial-closure alert *)

Lemma partial_step (st : State) (t : Tick) :
  (lastVideoTime st =? currentTime t)%float = false ->
  partialEyes t ->
  eyePartiallyClosedFrames (stateOf (predictWebcam st t)) =
    eyePartiallyClosedFrames st + 1 /\
  (In EYES_PARTIALLY_CLOSED (currentAlerts (stateOf (predictWebcam st t))) <->
   In EYES_PARTIALLY_CLOSED (currentAlerts st) \/
   CONSECUTIVE_FRAMES <= eyePartiallyClosedFrames st + 1).
Proof.
  intros Hfresh (e & (m & h & Hd) & Hc & Hp).
  rewrite (predictWebcam_detects _ _ _ _ _ Hfresh Hd). cbn [stateOf].
  set (st0 := set_lastVideoTime (currentTime t) st).
  destruct (classify_eye_counters e m h st0) as [_ ->].
  rewrite classify_In_eye by now right.
  rewrite detectEyes_alerts, Hc, Hp. subst st0.
  cbn [set_lastVideoTime eyePartiallyClosedFrames currentAlerts].
  split; [reflexivity|].
  destruct (CONSECUTIVE_FRAMES <=? eyePartiallyClosedFrames st + 1)%nat eqn:E.
  - apply Nat.leb_le in E. rewrite add_In. tauto.
  - apply Nat.leb_gt in E. intuition lia.
Qed.

Lemma partial_run (ticks : list Tick) :
  forall st,
    advancing (lastVideoTime st) ticks = true ->
    Forall partialEyes ticks ->
    eyePartiallyClosedFrames (run st ticks) =
      eyePartiallyClosedFrames st + List.length ticks /\
    (In EYES_PARTIALLY_CLOSED (currentAlerts (run st ticks)) <->
     In EYES_PARTIALLY_CLOSED (currentAlerts st) \/
     (0 < List.length ticks /\
      CONSECUTIVE_FRAMES <= eyePartiallyClosedFrames st + List.length ticks)).
Proof.
  induction ticks as [|t ticks IH]; intros st Ha Hc.
  - cbn. split; [lia | intuition lia].
  - cbn [advancing] in Ha. apply andb_true_iff in Ha as [H1 H2].
    apply negb_true_iff in H1. inversion Hc as [|? ? Ht Hts]; subst.
    destruct (partial_step st t H1 Ht) as (Hn & Hin).
    rewrite <- (predictWebcam_lastVideoTime _ _ H1) in H2.
    destruct (IH _ H2 Hts) as [IHn IHin].
    rewrite run_cons, IHn, IHin, Hn, Hin. cbn [List.length].
    split; [lia | intuition lia].
Qed.

(** On a reported frame with EAR below [EAR_THRESHOLD_CLOSED] the
    partial-closure alert keeps its membership. *)
Lemma closed_frame_keeps_partial_alert (st : State) (t : Tick) (r : Report) :
  reportOf (predictWebcam st t) = Some r ->
  (ear r <? EAR_THRESHOLD_CLOSED)%float = true ->
  (In EYES_PARTIALLY_CLOSED (currentAlerts (stateOf (predictWebcam st t))) <->
   In EYES_PARTIALLY_CLOSED (currentAlerts st)).
Proof.
  intros Hr Hc. destruct (predictWebcam_reports _ _ _ Hr) as (_ & _ & ->).
  cbn [stateOf]. rewrite classify_In_eye by now right.
  rewrite detectEyes_alerts, Hc. cbn [set_lastVideoTime currentAlerts eyeClosedFrames].
  destruct (CONSECUTIVE_FRAMES <=? _)%nat; [|reflexivity].
  rewrite add_In. split; [intros [H | H]; [exact H | discriminate H] | tauto].
Qed.

Lemma closed_run_keeps_partial_alert (ticks : list Tick) :
  forall st,
    advancing (lastVideoTime st) ticks = true ->
    Forall closedEyes ticks ->
    (In EYES_PARTIALLY_CLOSED (currentAlerts (run st ticks)) <->
     In EYES_PARTIALLY_CLOSED (currentAlerts st)).
Proof.
  induction ticks as [|t ticks IH]; intros st Ha Hc; [reflexivity|].
  cbn [advancing] in Ha. apply andb_true_iff in Ha as [H1 H2].
  apply negb_true_iff in H1. inversion Hc as [|? ? Ht Hts]; subst.
  rewrite <- (predictWebcam_lastVideoTime _ _ H1) in H2.
  rewrite run_cons, (IH _ H2 Hts).
  destruct Ht as (e & (m & h & Hd) & He).
  pose proof (predictWebcam_detects _ _ _ _ _ H1 Hd) as E.
  apply (closed_frame_keeps_partial_alert st t
           (snd (classify e m h (set_lastVideoTime (currentTime t) st)))).
  - rewrite E. reflexivity.
  - destruct (classify_features e m h (set_lastVideoTime (currentTime t) st))
      as (-> & _). exact He.
Qed.

(** The partial-closure alert leaves the set only on a reported frame whose
    EAR is not below [EAR_THRESHOLD_PARTIALLY]. *)
Lemma partial_alert_removed (st : State) (t : Tick) :
  In EYES_PARTIALLY_CLOSED (currentAlerts st) ->
  ~ In EYES_PARTIALLY_CLOSED (currentAlerts (stateOf (predictWebcam st t))) ->
  exists r, reportOf (predictWebcam st t) = Some r /\
            (ear r <? EAR_THRESHOLD_PARTIALLY)%float = false.
Proof.
  intros Hin Hout.
  destruct (reportOf (predictWebcam st t)) as [r|] eqn:Hr.
  - exists r. split; [reflexivity|].
    destruct (predictWebcam_reports _ _ _ Hr) as (_ & _ & E).
    rewrite E in Hout. cbn [stateOf] in Hout.
    rewrite classify_In_eye in Hout by now right.
    rewrite detectEyes_alerts in Hout.
    cbn [set_lastVideoTime currentAlerts eyeClosedFrames eyePartiallyClosedFrames]
      in Hout.
    destruct (ear r <? EAR_THRESHOLD_PARTIALLY)%float; [|reflexivity].
    exfalso. apply Hout.
    repeat match goal with |- context [if ?b then _ else _] => destruct b end;
      rewrite ?add_In; tauto.
  - destruct (predictWebcam_silent _ _ Hr) as [Hc _].
    injection Hc as _ _ _ _ Hc. rewrite Hc in Hout. contradiction.
Qed.

(** C10, as amended.  Once the partial-closure alert is in the set, frame
    processing removes it only on a reported frame whose EAR is not below
    [EAR_THRESHOLD_PARTIALLY]: EAR at least 0.22, or EAR not a number.  A
    frame with EAR below [EAR_THRESHOLD_CLOSED] never removes it.  So after
    fifteen or more partial-closure frames followed by fifteen or more
    closed-eye frames, both eye alerts are in the set. *)
Theorem partial_alert_survives_full_closure
  (st : State) (t : Tick) (partials closeds : list Tick) :
  (In EYES_PARTIALLY_CLOSED (currentAlerts st) ->
   ~ In EYES_PARTIALLY_CLOSED (currentAlerts (stateOf (predictWebcam st t))) ->
   exists r, reportOf (predictWebcam st t) = Some r /\
             (ear r <? EAR_THRESHOLD_PARTIALLY)%float = false /\
             ((EAR_THRESHOLD_PARTIALLY <=? ear r)%float = true \/
              is_nan (ear r) = true)) /\
  (In EYES_PARTIALLY_CLOSED (currentAlerts st) ->
   forall r, reportOf (predictWebcam st t) = Some r ->
             (ear r <? EAR_THRESHOLD_CLOSED)%float = true ->
             In EYES_PARTIALLY_CLOSED (currentAlerts (stateOf (predictWebcam st t)))) /\
  (Forall partialEyes partials -> Forall closedEyes closeds ->
   CONSECUTIVE_FRAMES <= List.length partials ->
   CONSECUTIVE_FRAMES <= List.length closeds ->
   advancing (lastVideoTime initialState) (partials ++ closeds) = true ->
   In EYES_CLOSED (currentAlerts (run initialState (partials ++ closeds))) /\
   In EYES_PARTIALLY_CLOSED (currentAlerts (run initialState (partials ++ closeds)))).
Proof.
  split; [|split].
  - intros Hin Hout. destruct (partial_alert_removed st t Hin Hout) as (r & Hr & Hlt).
    exists r. split; [exact Hr|]. split; [exact Hlt|].
    destruct (ltb_false _ _ Hlt) as [H | [H | H]]; [now left | now right | discriminate H].
  - intros Hin r Hr Hc. now apply (closed_frame_keeps_partial_alert st t r Hr Hc).
  - intros Hp Hc Lp Lc Ha.
    rewrite advancing_app in Ha. apply andb_true_iff in Ha as [Ha Hb].
    rewrite <- (run_lastVideoTime _ _ Ha) in Hb.
    destruct (partial_run _ _ Ha Hp) as [_ Pin].
    destruct (closed_run _ _ Hb Hc) as [_ Cin].
    rewrite run_app. split.
    + apply Cin. right. unfold CONSECUTIVE_FRAMES in *. lia.
    + apply (closed_run_keeps_partial_alert _ _ Hb Hc). apply Pin. right.
      cbn. unfold CONSECUTIVE_FRAMES in *. lia.
Qed.

Lemma partial_alert_survives_full_closure_witness :
  In EYES_CLOSED
     (currentAlerts (run initialState (ticksOf (faceOf 0.2 0) 0 15
                                       ++ ticksOf (faceOf 0.1 0) 15 15))) /\
  In EYES_PARTIALLY_CLOSED
     (currentAlerts (run initialState (ticksOf (faceOf 0.2 0) 0 15
                                       ++ ticksOf (faceOf 0.1 0) 15 15))).
Proof.
  refine (proj2 (proj2 (partial_alert_survives_full_closure
                          initialState (mkTick 0 None)
                          (ticksOf (faceOf 0.2 0) 0 15)
                          (ticksOf (faceOf 0.1 0) 15 15))) _ _ _ _ _).
  - repeat (apply Forall_cons;
            [exists 0.2%float; split;
             [do 2 eexists; vm_compute; reflexivity | split; reflexivity]|]).
    apply Forall_nil.
  - repeat (apply Forall_cons;
            [exists 0.1%float; split;
             [do 2 eexists; vm_compute; reflexivity | reflexivity]|]).
    apply Forall_nil.
  - cbn. unfold CONSECUTIVE_FRAMES. lia.
  - cbn. unfold CONSECUTIVE_FRAMES. lia.
  - vm_compute; reflexivity.
Defined.

(** C10 as stated fails: a face whose eye landmarks all coincide has EAR
    [0/0], not a number; it is below no threshold, so the frame clears the
    partial-closure alert although its EAR is not at least 0.22. *)
Lemma partial_alert_removed_by_nan_ear :
  In EYES_PARTIALLY_CLOSED
     (currentAlerts (run initialState (ticksOf (faceOf 0.2 0) 0 15))) /\
  ~ In EYES_PARTIALLY_CLOSED
      (currentAlerts
         (stateOf (predictWebcam (run initialState (ticksOf (faceOf 0.2 0) 0 15))
                                 (mkTick 16 (Some [sampleFace 0 0 0 0 0 0 0]))))) /\
  option_map (fun r => (EAR_THRESHOLD_PARTIALLY <=? ear r)%float)
    (reportOf (predictWebcam (run initialState (ticksOf (faceOf 0.2 0) 0 15))
                             (mkTick 16 (Some [sampleFace 0 0 0 0 0 0 0]))))
  = Some false.
Proof.
  split; [vm_compute; tauto|]. split; [|vm_compute; reflexivity].
  vm_compute. tauto.
Qed.

(** * Further properties of the script *)

(** ** The alarm flag *)

Lemma updateAlert_alarm (type : string) (isActive : bool) (st : State) :
  alarmFollowsAlerts (updateAlert type isActive st).
Proof.
  unfold alarmFollowsAlerts, updateAlert.
  unfold set_currentAlerts, set_isAlertPlaying.
  destruct st as [a b c d playing alerts time].
  cbn [eyeClosedFrames eyePartiallyClosedFrames yawnFrames headTurnedFrames
       isAlertPlaying currentAlerts lastVideoTime].
  destruct isActive;
    [set (s := JsSet.add alerts type) | set (s := JsSet.delete alerts type)];
    cbn [eyeClosedFrames eyePartiallyClosedFrames yawnFrames headTurnedFrames
         isAlertPlaying currentAlerts lastVideoTime];
    destruct (0 <? JsSet.size s)%nat eqn:E; destruct playing;
    cbn [negb isAlertPlaying currentAlerts]; rewrite ?E; reflexivity.
Qed.

Lemma detectEyes_alarm (e : float) (st : State) :
  alarmFollowsAlerts st -> alarmFollowsAlerts (fst (detectEyes e st)).
Proof.
  intros H. unfold detectEyes.
  repeat match goal with |- context [if ?b then _ else _] => destruct b end;
    cbn [fst]; try apply updateAlert_alarm; exact H.
Qed.

Lemma detectYawn_alarm (m : float) (st : State) :
  alarmFollowsAlerts st -> alarmFollowsAlerts (fst (detectYawn m st)).
Proof.
  intros H. unfold detectYawn.
  repeat match goal with |- context [if ?b then _ else _] => destruct b end;
    cbn [fst]; try apply updateAlert_alarm; exact H.
Qed.

Lemma detectHead_alarm (h : HeadPose) (st : State) :
  alarmFollowsAlerts st -> alarmFollowsAlerts (fst (detectHead h st)).
Proof.
  intros H. unfold detectHead.
  repeat match goal with |- context [if ?b then _ else _] => destruct b end;
    cbn [fst]; try apply updateAlert_alarm; exact H.
Qed.

Lemma predictWebcam_alarm (st : State) (t : Tick) :
  alarmFollowsAlerts st -> alarmFollowsAlerts (stateOf (predictWebcam st t)).
Proof.
  intros H. destruct (reportOf (predictWebcam st t)) as [r|] eqn:E.
  - destruct (predictWebcam_reports _ _ _ E) as (_ & _ & ->). cbn [stateOf].
    rewrite classify_state.
    apply detectHead_alarm, detectYawn_alarm, detectEyes_alarm. exact H.
  - destruct (predictWebcam_silent _ _ E) as [Hc Hp].
    injection Hc as _ _ _ _ Hc. unfold alarmFollowsAlerts. now rewrite Hp, Hc.
Qed.

Lemma reachable_alarm (st : State) : reachable st -> alarmFollowsAlerts st.
Proof.
  induction 1 as [|st t _ IH|st _ _].
  - reflexivity.
  - now apply predictWebcam_alarm.
  - destruct st as [a b c d [|] l t]; reflexivity.
Qed.

(** X1. In every reachable state the alarm flag [isAlertPlaying] is set
    exactly when [currentAlerts] has a member: the alarm never loops without an
    alert and never stays silent with one. *)
Theorem alarm_plays_iff_alert_active (st : State) :
  reachable st ->
  (isAlertPlaying st = true <-> currentAlerts st <> []).
Proof.
  intros H. apply reachable_alarm in H. unfold alarmFollowsAlerts in H.
  rewrite H. destruct (currentAlerts st); cbn; split; congruence.
Qed.

Lemma alarm_plays_iff_alert_active_witness :
  isAlertPlaying (run initialState (ticksOf (faceOf 0.10 0.85) 0 15)) = true <->
  currentAlerts (run initialState (ticksOf (faceOf 0.10 0.85) 0 15)) <> [].
Proof.
  apply (alarm_plays_iff_alert_active
           (run initialState (ticksOf (faceOf 0.10 0.85) 0 15))).
  apply reachable_run, reach_init.
Defined.

(** ** What the alert set can hold *)

Lemma add_NoDup (s : list string) (t : string) : NoDup s -> NoDup (JsSet.add s t).
Proof.
  intros H. unfold JsSet.add. destruct (JsSet.has s t) eqn:E; [exact H|].
  apply NoDup_app; [exact H | repeat constructor; cbn; tauto |].
  intros v Hv [<- | []]. apply has_In in Hv. congruence.
Qed.

Lemma delete_NoDup (s : list string) (t : string) : NoDup s -> NoDup (JsSet.delete s t).
Proof. apply NoDup_filter. Qed.

(** A duplicate-free alert list whose members are all alert strings. *)
Lemma updateAlert_wellformed (type : string) (isActive : bool) (st : State) :
  In type alertKinds ->
  NoDup (currentAlerts st) /\ incl (currentAlerts st) alertKinds ->
  NoDup (currentAlerts (updateAlert type isActive st)) /\
  incl (currentAlerts (updateAlert type isActive st)) alertKinds.
Proof.
  intros Ht [Hn Hi]. rewrite updateAlert_alerts. destruct isActive.
  - split; [now apply add_NoDup|].
    intros v Hv. apply add_In in Hv as [Hv | ->]; [now apply Hi | exact Ht].
  - split; [now apply delete_NoDup|].
    intros v Hv. apply delete_In in Hv as [Hv _]. now apply Hi.
Qed.

Ltac alert_kind := cbv [alertKinds In]; tauto.

Lemma classify_wellformed (e m : float) (h : HeadPose) (st : State) :
  NoDup (currentAlerts st) /\ incl (currentAlerts st) alertKinds ->
  NoDup (currentAlerts (fst (classify e m h st))) /\
  incl (currentAlerts (fst (classify e m h st))) alertKinds.
Proof.
  intros H. rewrite classify_state.
  assert (He : NoDup (currentAlerts (fst (detectEyes e st))) /\
               incl (currentAlerts (fst (detectEyes e st))) alertKinds).
  { unfold detectEyes.
    repeat match goal with |- context [if ?b then _ else _] => destruct b end;
      cbn [fst]; repeat (apply updateAlert_wellformed; [alert_kind|]); exact H. }
  assert (Hy : NoDup (currentAlerts (fst (detectYawn m (fst (detectEyes e st))))) /\
               incl (currentAlerts (fst (detectYawn m (fst (detectEyes e st)))))
                    alertKinds).
  { revert He. generalize (fst (detectEyes e st)). intros st1 H1.
    unfold detectYawn.
    repeat match goal with |- context [if ?b then _ else _] => destruct b end;
      cbn [fst]; repeat (apply updateAlert_wellformed; [alert_kind|]); exact H1. }
  revert Hy. generalize (fst (detectYawn m (fst (detectEyes e st)))). intros st2 H2.
  unfold detectHead.
  repeat match goal with |- context [if ?b then _ else _] => destruct b end;
    cbn [fst]; repeat (apply updateAlert_wellformed; [alert_kind|]); exact H2.
Qed.

(** X2. In every reachable state [currentAlerts] lists each active alert
    once, holds nothing but the five alert strings of the script, and so never
    has more than five members. *)
Theorem alerts_are_the_five_kinds (st : State) :
  reachable st ->
  NoDup (currentAlerts st) /\
  (forall v, In v (currentAlerts st) -> In v alertKinds) /\
  JsSet.size (currentAlerts st) <= 5.
Proof.
  intros H.
  assert (W : NoDup (currentAlerts st) /\ incl (currentAlerts st) alertKinds).
  { induction H as [|st t _ IH|st _ _].
    - split; [constructor | intros v []].
    - destruct (reportOf (predictWebcam st t)) as [r|] eqn:E.
      + destruct (predictWebcam_reports _ _ _ E) as (_ & _ & ->). cbn [stateOf].
        apply classify_wellformed. exact IH.
      + destruct (predictWebcam_silent _ _ E) as [Hc _].
        injection Hc as _ _ _ _ ->. exact IH.
    - destruct st as [a b c d [|] l t]; cbn; unfold JsSet.clear;
        (split; [constructor | intros v []]). }
  destruct W as [Hn Hi]. split; [exact Hn|]. split; [exact Hi|].
  apply (NoDup_incl_length Hn Hi).
Qed.

Lemma alerts_are_the_five_kinds_witness :
  JsSet.size
    (currentAlerts (run initialState (ticksOf (faceOf 0.2 0.7) 0 15
                                      ++ ticksOf (faceOf 0.1 0.85) 15 15))) <= 5.
Proof.
  apply (alerts_are_the_five_kinds
           (run initialState (ticksOf (faceOf 0.2 0.7) 0 15
                              ++ ticksOf (faceOf 0.1 0.85) 15 15))).
  apply reachable_run, reach_init.
Defined.

(** ** [updateAlert] called again *)

Lemma add_add (s : list string) (t : string) :
  JsSet.add (JsSet.add s t) t = JsSet.add s t.
Proof.
  unfold JsSet.add at 1.
  assert (H : JsSet.has (JsSet.add s t) t = true)
    by (apply has_In, add_In; now right).
  now rewrite H.
Qed.

Lemma delete_delete (s : list string) (t : string) :
  JsSet.delete (JsSet.delete s t) t = JsSet.delete s t.
Proof.
  unfold JsSet.delete. induction s as [|u s IH]; [reflexivity|].
  cbn. destruct (negb (String.eqb t u)) eqn:E; cbn; rewrite ?E, IH; reflexivity.
Qed.

Lemma updateAlert_settled (type : string) (isActive : bool) (st : State) :
  alarmFollowsAlerts st ->
  currentAlerts st = (if isActive then JsSet.add (currentAlerts st) type
                      else JsSet.delete (currentAlerts st) type) ->
  updateAlert type isActive st = st.
Proof.
  unfold alarmFollowsAlerts, updateAlert, set_currentAlerts, set_isAlertPlaying.
  destruct st as [a b c d playing alerts time].
  cbn [eyeClosedFrames eyePartiallyClosedFrames yawnFrames headTurnedFrames
       isAlertPlaying currentAlerts lastVideoTime].
  intros Hp Hs. destruct isActive; rewrite <- Hs;
    cbn [eyeClosedFrames eyePartiallyClosedFrames yawnFrames headTurnedFrames
         isAlertPlaying currentAlerts lastVideoTime];
    rewrite <- Hp; destruct playing; reflexivity.
Qed.

(** X3. [updateAlert] is idempotent: a second call with the same alert and
    the same flag leaves every variable as the first call left it. *)
Theorem updateAlert_idempotent (type : string) (isActive : bool) (st : State) :
  updateAlert type isActive (updateAlert type isActive st) =
  updateAlert type isActive st.
Proof.
  apply updateAlert_settled; [apply updateAlert_alarm|].
  rewrite updateAlert_alerts.
  destruct isActive; [now rewrite add_add | now rewrite delete_delete].
Qed.

Lemma delete_absent (s : list string) (t : string) :
  ~ In t s -> JsSet.delete s t = s.
Proof.
  unfold JsSet.delete. induction s as [|u s IH]; intros H; [reflexivity|].
  cbn. destruct (String.eqb_spec t u) as [-> | Hne].
  - exfalso. apply H. now left.
  - cbn. rewrite IH; [reflexivity | intros Hin; apply H; now right].
Qed.

Lemma delete_add (s : list string) (t : string) :
  ~ In t s -> JsSet.delete (JsSet.add s t) t = s.
Proof.
  intros H. unfold JsSet.add.
  destruct (JsSet.has s t) eqn:E; [apply has_In in E; contradiction|].
  unfold JsSet.delete. rewrite filter_app. cbn. rewrite String.eqb_refl. cbn.
  rewrite app_nil_r. now apply delete_absent.
Qed.

(** X4. Activating an alert that is not in the set and then deactivating it
    restores the state exactly (the set with its order, the counters and, in
    a reachable state, the alarm flag). *)
Theorem updateAlert_on_then_off (type : string) (st : State) :
  reachable st ->
  ~ In type (currentAlerts st) ->
  updateAlert type false (updateAlert type true st) = st.
Proof.
  intros Hr Hin. apply reachable_alarm in Hr.
  pose proof (updateAlert_alerts type false (updateAlert type true st)) as Ha.
  rewrite (updateAlert_alerts type true st), (delete_add _ _ Hin) in Ha.
  pose proof (updateAlert_alarm type false (updateAlert type true st)) as Hp.
  unfold alarmFollowsAlerts in Hp, Hr. rewrite Ha, <- Hr in Hp.
  destruct (updateAlert_counters type false (updateAlert type true st))
    as (C1 & C2 & C3 & C4 & C5).
  destruct (updateAlert_counters type true st) as (D1 & D2 & D3 & D4 & D5).
  rewrite D1 in C1. rewrite D2 in C2. rewrite D3 in C3. rewrite D4 in C4.
  rewrite D5 in C5.
  destruct (updateAlert type false (updateAlert type true st)), st.
  cbn in *. congruence.
Qed.

Lemma updateAlert_on_then_off_witness :
  updateAlert HEAD_NOT_FORWARD false
    (updateAlert HEAD_NOT_FORWARD true
       (run initialState (ticksOf (faceOf 0.10 0.85) 0 15))) =
  run initialState (ticksOf (faceOf 0.10 0.85) 0 15).
Proof.
  apply (updateAlert_on_then_off HEAD_NOT_FORWARD
           (run initialState (ticksOf (faceOf 0.10 0.85) 0 15))).
  - apply reachable_run, reach_init.
  - vm_compute. intros [H | [H | []]]; discriminate H.
Defined.

(** ** Landmark arrays that are too short *)

Lemma at_index_Some (landmarks : list Landmark) (i : nat) :
  i < List.length landmarks -> exists p, at_index landmarks i = Some p.
Proof.
  intros H. unfold at_index.
  destruct (nth_error landmarks i) as [p|] eqn:E; [now exists p|].
  apply nth_error_None in E. lia.
Qed.

Lemma at_index_None (landmarks : list Landmark) (i : nat) :
  List.length landmarks <= i -> at_index landmarks i = None.
Proof. intros H. now apply nth_error_None. Qed.

Lemma distanceAt_Some (landmarks : list Landmark) (i j : nat) :
  i < List.length landmarks -> j < List.length landmarks ->
  exists d, distanceAt landmarks i j = Some d.
Proof.
  intros Hi Hj. unfold distanceAt.
  destruct (at_index_Some _ _ Hi) as [p ->], (at_index_Some _ _ Hj) as [q ->].
  cbn. eauto.
Qed.

Lemma distanceAt_None (landmarks : list Landmark) (i j : nat) :
  List.length landmarks <= i \/ List.length landmarks <= j ->
  distanceAt landmarks i j = None.
Proof.
  intros [H | H]; unfold distanceAt.
  - now rewrite (at_index_None _ _ H).
  - rewrite (at_index_None _ j H). now destruct (at_index landmarks i).
Qed.

Ltac have_distance lm i j :=
  let d := fresh "d" in
  destruct (distanceAt_Some lm i j) as [d ->]; [lia | lia | cbn [bind]].

Lemma calculateEAR_defined (landmarks : list Landmark) :
  calculateEAR landmarks <> None <-> 388 <= List.length landmarks.
Proof.
  split.
  - intros H. destruct (Nat.le_gt_cases 388 (List.length landmarks)) as [L|L];
      [exact L | exfalso; apply H].
    unfold calculateEAR.
    repeat match goal with
           | |- context [distanceAt landmarks 387 373] =>
               rewrite (distanceAt_None landmarks 387 373) by (left; lia);
               reflexivity
           | |- bind ?m _ = None => destruct m; cbn [bind]; [|reflexivity]
           end.
  - intros L. unfold calculateEAR.
    have_distance landmarks 160 144. have_distance landmarks 158 153.
    have_distance landmarks 33 133. have_distance landmarks 385 380.
    have_distance landmarks 387 373. have_distance landmarks 362 263.
    discriminate.
Qed.

Lemma calculateMAR_defined (landmarks : list Landmark) :
  calculateMAR landmarks <> None <-> 309 <= List.length landmarks.
Proof.
  split.
  - intros H. destruct (Nat.le_gt_cases 309 (List.length landmarks)) as [L|L];
      [exact L | exfalso; apply H].
    unfold calculateMAR.
    destruct (distanceAt landmarks 13 14); cbn [bind]; [|reflexivity].
    now rewrite (distanceAt_None landmarks 78 308) by (right; lia).
  - intros L. unfold calculateMAR.
    have_distance landmarks 13 14. have_distance landmarks 78 308. discriminate.
Qed.

Lemma calculateHeadPose_defined (landmarks : list Landmark) :
  calculateHeadPose landmarks <> None <-> 455 <= List.length landmarks.
Proof.
  split.
  - intros H. destruct (Nat.le_gt_cases 455 (List.length landmarks)) as [L|L];
      [exact L | exfalso; apply H].
    unfold calculateHeadPose.
    destruct (at_index landmarks 1); cbn [bind]; [|reflexivity].
    destruct (at_index landmarks 234); cbn [bind]; [|reflexivity].
    now rewrite (at_index_None landmarks 454) by lia.
  - intros L. unfold calculateHeadPose.
    destruct (at_index_Some landmarks 1) as [p ->]; [lia|].
    destruct (at_index_Some landmarks 234) as [q ->]; [lia|].
    destruct (at_index_Some landmarks 454) as [r ->]; [lia|].
    discriminate.
Qed.

Lemma features_defined (landmarks : list Landmark) :
  features landmarks <> None <-> 455 <= List.length landmarks.
Proof.
  pose proof (calculateEAR_defined landmarks) as He.
  pose proof (calculateMAR_defined landmarks) as Hm.
  pose proof (calculateHeadPose_defined landmarks) as Hh.
  unfold features.
  destruct (calculateEAR landmarks) as [e|]; cbn [bind].
  - destruct (calculateMAR landmarks) as [m|]; cbn [bind].
    + destruct (calculateHeadPose landmarks) as [h|]; cbn [bind].
      * split; [intros _; apply Hh; discriminate | discriminate].
      * split; [congruence | intros L; apply Hh in L; congruence].
    + split; [congruence|]. intros L.
      assert (L' : 309 <= List.length landmarks) by lia.
      apply Hm in L'. congruence.
  - split; [congruence|]. intros L.
    assert (L' : 388 <= List.length landmarks) by lia.
    apply He in L'. congruence.
Qed.

(** X5. A new video frame whose first face has at least 455 landmarks is
    classified and reported; with fewer, one of the three extractors reads a
    missing landmark and the call throws having changed only
    [lastVideoTime], so no counter moves and no alert changes.  The three
    extractors need 388 (EAR), 309 (MAR) and 455 (head pose) landmarks. *)
Theorem frame_needs_455_landmarks
  (st : State) (t : Tick) (landmarks : list Landmark) (rest : list (list Landmark)) :
  faceLandmarks t = Some (landmarks :: rest) ->
  (lastVideoTime st =? currentTime t)%float = false ->
  (455 <= List.length landmarks ->
   exists st' r, predictWebcam st t = Returned st' (Some r)) /\
  (List.length landmarks < 455 ->
   predictWebcam st t = Threw (set_lastVideoTime (currentTime t) st)) /\
  (calculateEAR landmarks <> None <-> 388 <= List.length landmarks) /\
  (calculateMAR landmarks <> None <-> 309 <= List.length landmarks) /\
  (calculateHeadPose landmarks <> None <-> 455 <= List.length landmarks).
Proof.
  intros Hf Hfresh.
  pose proof (features_defined landmarks) as Hd.
  split; [|split; [|split; [apply calculateEAR_defined|
                            split; [apply calculateMAR_defined|
                                    apply calculateHeadPose_defined]]]].
  - intros L. apply Hd in L.
    destruct (features landmarks) as [[[e m] h]|] eqn:E; [|congruence].
    assert (D : detects t e m h) by (unfold detects, tickFeatures; now rewrite Hf).
    rewrite (predictWebcam_detects _ _ _ _ _ Hfresh D). eauto.
  - intros L. unfold predictWebcam. rewrite Hfresh, Hf. cbn [negb].
    destruct (features landmarks) eqn:E; [|reflexivity].
    assert (455 <= List.length landmarks) by (apply Hd; congruence). lia.
Qed.

Lemma frame_needs_455_landmarks_witness :
  predictWebcam initialState (mkTick 1 (Some [firstn 454 (faceOf 0.1 0)])) =
  Threw (set_lastVideoTime 1 initialState).
Proof.
  refine (proj1 (proj2 (frame_needs_455_landmarks initialState
            (mkTick 1 (Some [firstn 454 (faceOf 0.1 0)]))
            (firstn 454 (faceOf 0.1 0)) [] _ _)) _).
  - reflexivity.
  - reflexivity.
  - vm_compute. lia.
Defined.

(** ** The same video frame twice *)



(** ** Labels and alerts of one report *)

Lemma detectYawn_status (m : float) (st : State) :
  snd (detectYawn m st) =
    if (MAR_THRESHOLD_YAWN <? m)%float then
      if (CONSECUTIVE_FRAMES <=? yawnFrames st + 1)%nat then "YAWNING" else "NORMAL"
    else "NORMAL".
Proof. detector detectYawn; reflexivity. Qed.

Lemma detectHead_status (h : HeadPose) (st : State) :
  snd (detectHead h st) =
    if headTurnAlert h then
      if (CONSECUTIVE_FRAMES <=? headTurnedFrames st + 1)%nat then "TURNED" else "FORWARD"
    else "FORWARD".
Proof. detector detectHead; reflexivity. Qed.

Lemma classify_headTurnedFrames (e m : float) (h : HeadPose) (st : State) :
  headTurnedFrames (fst (classify e m h st)) =
    if headTurnAlert h then headTurnedFrames st + 1 else 0.
Proof.
  rewrite classify_state.
  destruct (detectHead_counters (fst (detectYawn m (fst (detectEyes e st)))) h)
    as (_ & _ & _ & -> & _).
  destruct (detectYawn_counters (fst (detectEyes e st)) m) as (_ & _ & _ & -> & _).
  destruct (detectEyes_counters st e) as (_ & _ & _ & -> & _).
  reflexivity.
Qed.

Lemma classify_In_head (e m : float) (h : HeadPose) (st : State) :
  In HEAD_NOT_FORWARD (currentAlerts (fst (classify e m h st))) <->
  if headTurnAlert h then
    In HEAD_NOT_FORWARD (currentAlerts st) \/ CONSECUTIVE_FRAMES <= headTurnedFrames st + 1
  else False.
Proof.
  rewrite classify_state, detectHead_alerts.
  destruct (detectYawn_counters (fst (detectEyes e st)) m) as (_ & _ & _ & -> & _).
  destruct (detectEyes_counters st e) as (_ & _ & _ & -> & _).
  assert (Hsame : In HEAD_NOT_FORWARD
                     (currentAlerts (fst (detectYawn m (fst (detectEyes e st))))) <->
                  In HEAD_NOT_FORWARD (currentAlerts st)).
  { rewrite detectYawn_In_other, detectEyes_In_other by discriminate. reflexivity. }
  destruct (headTurnAlert h).
  - destruct (CONSECUTIVE_FRAMES <=? headTurnedFrames st + 1)%nat eqn:E.
    + apply Nat.leb_le in E. rewrite add_In. tauto.
    + apply Nat.leb_gt in E. rewrite Hsame. intuition lia.
  - rewrite delete_In. tauto.
Qed.

(** What a report is: the classification of the tick's features in the state
    with the new video time. *)
Lemma report_is_classify (st : State) (t : Tick) (r : Report) :
  reportOf (predictWebcam st t) = Some r ->
  exists e m h,
    e = ear r /\ m = mar r /\ h = headPose r /\
    (lastVideoTime st =? currentTime t)%float = false /\
    detects t e m h /\
    stateOf (predictWebcam st t) =
      fst (classify e m h (set_lastVideoTime (currentTime t) st)) /\
    r = snd (classify e m h (set_lastVideoTime (currentTime t) st)).
Proof.
  intros H. destruct (predictWebcam_reports _ _ _ H) as (Hf & Hd & _).
  exists (ear r), (mar r), (headPose r).
  pose proof (predictWebcam_detects _ _ _ _ _ Hf Hd) as E.
  rewrite E in H. cbn in H. injection H as H.
  rewrite E. cbn [stateOf]. repeat split; try assumption; try reflexivity.
  now symmetry.
Qed.

Lemma In_nonempty_drowsy (v : string) (alerts : list string) :
  In v alerts ->
  (if (0 <? JsSet.size alerts)%nat then "DROWSY" else "SAFE") = "DROWSY".
Proof. destruct alerts; [intros [] | reflexivity]. Qed.

(** X7. In every report, each label takes one of its two or three values, an
    alerting label comes with its alert in the set (CLOSED with the
    eyes-closed alert, PARTIALLY_CLOSED with the partial one, YAWNING with one
    of the two yawn alerts, TURNED with the head alert), and any alerting
    label makes [driverStatus] DROWSY. *)
Theorem alerting_label_has_its_alert (st : State) (t : Tick) (r : Report) :
  reportOf (predictWebcam st t) = Some r ->
  (In (eyeStatus r) ["OPEN"; "PARTIALLY_CLOSED"; "CLOSED"] /\
   In (yawnStatus r) ["NORMAL"; "YAWNING"] /\
   In (headStatus r) ["FORWARD"; "TURNED"]) /\
  (eyeStatus r = "CLOSED" ->
   In EYES_CLOSED (currentAlerts (stateOf (predictWebcam st t)))) /\
  (eyeStatus r = "PARTIALLY_CLOSED" ->
   In EYES_PARTIALLY_CLOSED (currentAlerts (stateOf (predictWebcam st t)))) /\
  (yawnStatus r = "YAWNING" ->
   In EXCESSIVE_YAWNING (currentAlerts (stateOf (predictWebcam st t))) \/
   In YAWNING_DETECTED (currentAlerts (stateOf (predictWebcam st t)))) /\
  (headStatus r = "TURNED" ->
   In HEAD_NOT_FORWARD (currentAlerts (stateOf (predictWebcam st t)))) /\
  (eyeStatus r <> "OPEN" \/ yawnStatus r <> "NORMAL" \/ headStatus r <> "FORWARD" ->
   driverStatus r = "DROWSY").
Proof.
  intros H. destruct (report_is_classify _ _ _ H) as (e & m & h & _ & _ & _ & _ & _ & -> & ->).
  set (st0 := set_lastVideoTime (currentTime t) st).
  rewrite classify_report. cbn [eyeStatus yawnStatus headStatus driverStatus].
  rewrite detectEyes_status, detectYawn_status, detectHead_status.
  destruct (detectEyes_counters st0 e) as (_ & _ & Ey & Eh & _).
  destruct (detectYawn_counters (fst (detectEyes e st0)) m) as (_ & _ & _ & Yh & _).
  rewrite Ey, Yh, Eh.
  assert (Hec : (e <? EAR_THRESHOLD_CLOSED)%float = true ->
                CONSECUTIVE_FRAMES <= eyeClosedFrames st0 + 1 ->
                In EYES_CLOSED (currentAlerts (fst (classify e m h st0)))).
  { intros B L. rewrite classify_In_eye by now left.
    rewrite detectEyes_alerts, B. apply Nat.leb_le in L. rewrite L.
    apply add_In. now right. }
  assert (Hep : (e <? EAR_THRESHOLD_CLOSED)%float = false ->
                (e <? EAR_THRESHOLD_PARTIALLY)%float = true ->
                CONSECUTIVE_FRAMES <= eyePartiallyClosedFrames st0 + 1 ->
                In EYES_PARTIALLY_CLOSED (currentAlerts (fst (classify e m h st0)))).
  { intros B1 B2 L. rewrite classify_In_eye by now right.
    rewrite detectEyes_alerts, B1, B2. apply Nat.leb_le in L. rewrite L.
    apply add_In. now right. }
  assert (Hy : (MAR_THRESHOLD_YAWN <? m)%float = true ->
               CONSECUTIVE_FRAMES <= yawnFrames st0 + 1 ->
               In EXCESSIVE_YAWNING (currentAlerts (fst (classify e m h st0))) \/
               In YAWNING_DETECTED (currentAlerts (fst (classify e m h st0)))).
  { intros B L. rewrite !classify_In_yawn by tauto. rewrite B.
    destruct (MAR_THRESHOLD_ALERT <? m)%float; tauto. }
  assert (Hh : headTurnAlert h = true ->
               CONSECUTIVE_FRAMES <= headTurnedFrames st0 + 1 ->
               In HEAD_NOT_FORWARD (currentAlerts (fst (classify e m h st0)))).
  { intros B L. rewrite classify_In_head, B. now right. }
  assert (Reye : In (if (e <? EAR_THRESHOLD_CLOSED)%float
                     then if (CONSECUTIVE_FRAMES <=? eyeClosedFrames st0 + 1)%nat
                          then "CLOSED" else "OPEN"
                     else if (e <? EAR_THRESHOLD_PARTIALLY)%float
                          then if (CONSECUTIVE_FRAMES <=? eyePartiallyClosedFrames st0 + 1)%nat
                               then "PARTIALLY_CLOSED" else "OPEN"
                          else "OPEN")
                    ["OPEN"; "PARTIALLY_CLOSED"; "CLOSED"])
    by (repeat match goal with |- context [if ?b then _ else _] => destruct b end;
        cbn; tauto).
  assert (Ryawn : In (if (MAR_THRESHOLD_YAWN <? m)%float
                      then if (CONSECUTIVE_FRAMES <=? yawnFrames st0 + 1)%nat
                           then "YAWNING" else "NORMAL"
                      else "NORMAL") ["NORMAL"; "YAWNING"])
    by (repeat match goal with |- context [if ?b then _ else _] => destruct b end;
        cbn; tauto).
  assert (Rhead : In (if headTurnAlert h
                      then if (CONSECUTIVE_FRAMES <=? headTurnedFrames st0 + 1)%nat
                           then "TURNED" else "FORWARD"
                      else "FORWARD") ["FORWARD"; "TURNED"])
    by (repeat match goal with |- context [if ?b then _ else _] => destruct b end;
        cbn; tauto).
  assert (A1 : (if (e <? EAR_THRESHOLD_CLOSED)%float
                then if (CONSECUTIVE_FRAMES <=? eyeClosedFrames st0 + 1)%nat
                     then "CLOSED" else "OPEN"
                else if (e <? EAR_THRESHOLD_PARTIALLY)%float
                     then if (CONSECUTIVE_FRAMES <=? eyePartiallyClosedFrames st0 + 1)%nat
                          then "PARTIALLY_CLOSED" else "OPEN"
                     else "OPEN") = "CLOSED" ->
               In EYES_CLOSED (currentAlerts (fst (classify e m h st0)))).
  { destruct (e <? EAR_THRESHOLD_CLOSED)%float.
    - destruct (Nat.leb_spec CONSECUTIVE_FRAMES (eyeClosedFrames st0 + 1));
        [auto | discriminate].
    - repeat match goal with |- context [if ?b then _ else _] => destruct b end;
        discriminate. }
  assert (A2 : (if (e <? EAR_THRESHOLD_CLOSED)%float
                then if (CONSECUTIVE_FRAMES <=? eyeClosedFrames st0 + 1)%nat
                     then "CLOSED" else "OPEN"
                else if (e <? EAR_THRESHOLD_PARTIALLY)%float
                     then if (CONSECUTIVE_FRAMES <=? eyePartiallyClosedFrames st0 + 1)%nat
                          then "PARTIALLY_CLOSED" else "OPEN"
                     else "OPEN") = "PARTIALLY_CLOSED" ->
               In EYES_PARTIALLY_CLOSED (currentAlerts (fst (classify e m h st0)))).
  { destruct (e <? EAR_THRESHOLD_CLOSED)%float.
    - destruct (CONSECUTIVE_FRAMES <=? eyeClosedFrames st0 + 1)%nat; discriminate.
    - destruct (e <? EAR_THRESHOLD_PARTIALLY)%float; [|discriminate].
      destruct (Nat.leb_spec CONSECUTIVE_FRAMES (eyePartiallyClosedFrames st0 + 1));
        [auto | discriminate]. }
  assert (A3 : (if (MAR_THRESHOLD_YAWN <? m)%float
                then if (CONSECUTIVE_FRAMES <=? yawnFrames st0 + 1)%nat
                     then "YAWNING" else "NORMAL"
                else "NORMAL") = "YAWNING" ->
               In EXCESSIVE_YAWNING (currentAlerts (fst (classify e m h st0))) \/
               In YAWNING_DETECTED (currentAlerts (fst (classify e m h st0)))).
  { destruct (MAR_THRESHOLD_YAWN <? m)%float; [|discriminate].
    destruct (Nat.leb_spec CONSECUTIVE_FRAMES (yawnFrames st0 + 1));
      [auto | discriminate]. }
  assert (A4 : (if headTurnAlert h
                then if (CONSECUTIVE_FRAMES <=? headTurnedFrames st0 + 1)%nat
                     then "TURNED" else "FORWARD"
                else "FORWARD") = "TURNED" ->
               In HEAD_NOT_FORWARD (currentAlerts (fst (classify e m h st0)))).
  { destruct (headTurnAlert h); [|discriminate].
    destruct (Nat.leb_spec CONSECUTIVE_FRAMES (headTurnedFrames st0 + 1));
      [auto | discriminate]. }
  split; [tauto|]. split; [exact A1|]. split; [exact A2|]. split; [exact A3|].
  split; [exact A4|].
  intros [D | [D | D]].
  - destruct Reye as [E | [E | [E | []]]]; [congruence | |];
      symmetry in E; [apply A2 in E | apply A1 in E];
      eapply In_nonempty_drowsy; eassumption.
  - destruct Ryawn as [E | [E | []]]; [congruence|].
    symmetry in E. apply A3 in E. destruct E as [E | E];
      eapply In_nonempty_drowsy; eassumption.
  - destruct Rhead as [E | [E | []]]; [congruence|].
    symmetry in E. apply A4 in E. eapply In_nonempty_drowsy; eassumption.
Qed.

Lemma alerting_label_has_its_alert_witness :
  exists r,
    reportOf (predictWebcam (run initialState (ticksOf (faceOf 0.1 0) 0 14))
                            (mkTick 15 (Some [faceOf 0.1 0]))) = Some r /\
    eyeStatus r = "CLOSED" /\
    (eyeStatus r = "CLOSED" ->
     In EYES_CLOSED
        (currentAlerts
           (stateOf (predictWebcam (run initialState (ticksOf (faceOf 0.1 0) 0 14))
                                   (mkTick 15 (Some [faceOf 0.1 0])))))).
Proof.
  eexists. split; [vm_compute; reflexivity|]. split; [reflexivity|].
  refine (proj1 (proj2 (alerting_label_has_its_alert
            (run initialState (ticksOf (faceOf 0.1 0) 0 14))
            (mkTick 15 (Some [faceOf 0.1 0])) _ _))).
  vm_compute. reflexivity.
Defined.

(** ** Recovery *)

Lemma EAR_THRESHOLD_CLOSED_bits :
  Prim2SF EAR_THRESHOLD_CLOSED = S754_finite false 6485183463413514 (-55).
Proof. vm_compute. reflexivity. Qed.

Lemma EAR_THRESHOLD_PARTIALLY_bits :
  Prim2SF EAR_THRESHOLD_PARTIALLY = S754_finite false 7926335344172073 (-55).
Proof. vm_compute. reflexivity. Qed.

Lemma compare_cont_Eq (p q : positive) : Pos.compare_cont Eq p q = Pos.compare p q.
Proof. reflexivity. Qed.

(** Whatever is below [EAR_THRESHOLD_CLOSED] is below
    [EAR_THRESHOLD_PARTIALLY]. *)
Lemma below_closed_below_partial (e : float) :
  (e <? EAR_THRESHOLD_CLOSED)%float = true ->
  (e <? EAR_THRESHOLD_PARTIALLY)%float = true.
Proof.
  rewrite !ltb_spec, EAR_THRESHOLD_CLOSED_bits, EAR_THRESHOLD_PARTIALLY_bits.
  destruct (Prim2SF e) as [[|]|[|]| |[|] m ex]; unfold SFltb, SFcompare;
    try (intros H; exact H); try reflexivity.
  destruct (ex ?= -55)%Z; try (intros H; exact H).
  rewrite !compare_cont_Eq.
  destruct (Pos.compare m 6485183463413514) eqn:C; try (intros H; discriminate H).
  intros _. apply Pos.compare_lt_iff in C.
  assert (L : (m < 7926335344172073)%positive).
  { apply (Pos.lt_trans _ _ _ C). vm_compute. reflexivity. }
  apply Pos.compare_lt_iff in L. rewrite compare_cont_Eq, L. reflexivity.
Qed.

(** X8. Recovery is immediate for each signal, whatever the counters were: a
    reported frame whose EAR is not below [EAR_THRESHOLD_PARTIALLY] zeroes both
    eye counters, removes both eye alerts and shows OPEN; one whose MAR is not
    above [MAR_THRESHOLD_YAWN] zeroes [yawnFrames], removes both yawn alerts
    and shows NORMAL; one whose yaw ratio is inside the band zeroes
    [headTurnedFrames], removes the head alert and shows FORWARD. *)
Theorem one_normal_frame_clears (st : State) (t : Tick) (r : Report) :
  reportOf (predictWebcam st t) = Some r ->
  ((ear r <? EAR_THRESHOLD_PARTIALLY)%float = false ->
   eyeClosedFrames (stateOf (predictWebcam st t)) = 0 /\
   eyePartiallyClosedFrames (stateOf (predictWebcam st t)) = 0 /\
   ~ In EYES_CLOSED (currentAlerts (stateOf (predictWebcam st t))) /\
   ~ In EYES_PARTIALLY_CLOSED (currentAlerts (stateOf (predictWebcam st t))) /\
   eyeStatus r = "OPEN") /\
  ((MAR_THRESHOLD_YAWN <? mar r)%float = false ->
   yawnFrames (stateOf (predictWebcam st t)) = 0 /\
   ~ In YAWNING_DETECTED (currentAlerts (stateOf (predictWebcam st t))) /\
   ~ In EXCESSIVE_YAWNING (currentAlerts (stateOf (predictWebcam st t))) /\
   yawnStatus r = "NORMAL") /\
  (headTurnAlert (headPose r) = false ->
   headTurnedFrames (stateOf (predictWebcam st t)) = 0 /\
   ~ In HEAD_NOT_FORWARD (currentAlerts (stateOf (predictWebcam st t))) /\
   headStatus r = "FORWARD").
Proof.
  intros H.
  destruct (report_is_classify _ _ _ H) as (e & m & h & <- & <- & <- & _ & _ & -> & Hr).
  set (st0 := set_lastVideoTime (currentTime t) st) in *.
  assert (Hs : eyeStatus r = snd (detectEyes e st0) /\
               yawnStatus r = snd (detectYawn m (fst (detectEyes e st0))) /\
               headStatus r =
                 snd (detectHead h (fst (detectYawn m (fst (detectEyes e st0)))))).
  { rewrite Hr at 1 2 3. rewrite classify_report. cbn. repeat split; reflexivity. }
  destruct Hs as (-> & -> & ->). clear Hr.
  split; [|split].
  - intros Hp.
    assert (Hc : (e <? EAR_THRESHOLD_CLOSED)%float = false).
    { destruct (e <? EAR_THRESHOLD_CLOSED)%float eqn:E; [|reflexivity].
      apply below_closed_below_partial in E. congruence. }
    destruct (classify_eye_counters e m h st0) as [-> ->].
    rewrite !classify_In_eye by tauto.
    rewrite detectEyes_alerts, detectEyes_status, Hc, Hp, !delete_In.
    repeat split; tauto.
  - intros Hm. rewrite classify_yawnFrames, !classify_In_yawn by tauto.
    rewrite detectYawn_status, Hm. repeat split; tauto.
  - intros Hh. rewrite classify_headTurnedFrames, classify_In_head.
    rewrite detectHead_status, Hh. repeat split; tauto.
Qed.

Lemma one_normal_frame_clears_witness :
  ~ In EYES_CLOSED
      (currentAlerts
         (stateOf (predictWebcam (run initialState (ticksOf (faceOf 0.1 0) 0 15))
                                 (mkTick 16 (Some [faceOf 0.5 0]))))).
Proof.
  refine (proj1 (proj2 (proj2 (proj1 (one_normal_frame_clears
            (run initialState (ticksOf (faceOf 0.1 0) 0 15))
            (mkTick 16 (Some [faceOf 0.5 0]))
            (mkReport 0.5 0 (mkHeadPose 1 0 0) "OPEN" "NORMAL" "FORWARD" "SAFE")
            _) _)))).
  - vm_compute. reflexivity.
  - reflexivity.
Defined.

(** ** A stale eyes-closed alert *)

(** X9. The partial-closure branch never removes the eyes-closed alert: on a
    reported frame with EAR in [[0.18, 0.22)] an active eyes-closed alert
    stays active and the status stays DROWSY although [eyeClosedFrames] is
    back to 0, and until the partial counter reaches [CONSECUTIVE_FRAMES] the
    eye label shown is OPEN. *)
Theorem closed_alert_survives_partial_frames (st : State) (t : Tick) (r : Report) :
  reportOf (predictWebcam st t) = Some r ->
  (ear r <? EAR_THRESHOLD_CLOSED)%float = false ->
  (ear r <? EAR_THRESHOLD_PARTIALLY)%float = true ->
  In EYES_CLOSED (currentAlerts st) ->
  In EYES_CLOSED (currentAlerts (stateOf (predictWebcam st t))) /\
  eyeClosedFrames (stateOf (predictWebcam st t)) = 0 /\
  driverStatus r = "DROWSY" /\
  (eyePartiallyClosedFrames st + 1 < CONSECUTIVE_FRAMES -> eyeStatus r = "OPEN").
Proof.
  intros H.
  destruct (report_is_classify _ _ _ H) as (e & m & h & He & _ & _ & _ & _ & -> & Hr).
  rewrite <- He. clear He. intros Hc Hp Hin.
  set (st0 := set_lastVideoTime (currentTime t) st) in *.
  assert (Hs : eyeStatus r = snd (detectEyes e st0) /\
               driverStatus r =
                 if (0 <? JsSet.size (currentAlerts (fst (classify e m h st0))))%nat
                 then "DROWSY" else "SAFE").
  { rewrite Hr at 1 2. rewrite classify_report. cbn. split; reflexivity. }
  destruct Hs as (-> & ->). clear Hr.
  assert (Hafter : In EYES_CLOSED (currentAlerts (fst (classify e m h st0)))).
  { rewrite classify_In_eye by now left. rewrite detectEyes_alerts, Hc, Hp.
    destruct (CONSECUTIVE_FRAMES <=? _)%nat; [apply add_In; now left | exact Hin]. }
  destruct (classify_eye_counters e m h st0) as [-> _]. rewrite Hc.
  split; [exact Hafter|]. split; [reflexivity|].
  split; [eapply In_nonempty_drowsy; exact Hafter|].
  intros L. rewrite detectEyes_status, Hc, Hp.
  apply Nat.leb_gt in L. subst st0. cbn [set_lastVideoTime eyePartiallyClosedFrames].
  now rewrite L.
Qed.

Lemma closed_alert_survives_partial_frames_witness :
  In EYES_CLOSED
     (currentAlerts
        (stateOf (predictWebcam (run initialState (ticksOf (faceOf 0.1 0) 0 15))
                                (mkTick 16 (Some [faceOf 0.2 0]))))).
Proof.
  refine (proj1 (closed_alert_survives_partial_frames
            (run initialState (ticksOf (faceOf 0.1 0) 0 15))
            (mkTick 16 (Some [faceOf 0.2 0]))
            (mkReport 0.2 0 (mkHeadPose 1 0 0) "OPEN" "NORMAL" "FORWARD" "DROWSY")
            _ _ _ _)).
  - vm_compute. reflexivity.
  - reflexivity.
  - reflexivity.
  - vm_compute. tauto.
Defined.

(** ** Debounce of the head and partial-closure signals *)

Lemma head_step (st : State) (t : Tick) :
  (lastVideoTime st =? currentTime t)%float = false ->
  turnedHead t ->
  headTurnedFrames (stateOf (predictWebcam st t)) = headTurnedFrames st + 1 /\
  (In HEAD_NOT_FORWARD (currentAlerts (stateOf (predictWebcam st t))) <->
   In HEAD_NOT_FORWARD (currentAlerts st) \/
   CONSECUTIVE_FRAMES <= headTurnedFrames st + 1).
Proof.
  intros Hfresh (e & m & h & Hd & Hh).
  rewrite (predictWebcam_detects _ _ _ _ _ Hfresh Hd). cbn [stateOf].
  rewrite classify_headTurnedFrames, classify_In_head, Hh.
  split; reflexivity.
Qed.

Lemma head_run (ticks : list Tick) :
  forall st,
    advancing (lastVideoTime st) ticks = true ->
    Forall turnedHead ticks ->
    headTurnedFrames (run st ticks) = headTurnedFrames st + List.length ticks /\
    (In HEAD_NOT_FORWARD (currentAlerts (run st ticks)) <->
     In HEAD_NOT_FORWARD (currentAlerts st) \/
     (0 < List.length ticks /\
      CONSECUTIVE_FRAMES <= headTurnedFrames st + List.length ticks)).
Proof.
  induction ticks as [|t ticks IH]; intros st Ha Hc.
  - cbn. split; [lia | intuition lia].
  - cbn [advancing] in Ha. apply andb_true_iff in Ha as [H1 H2].
    apply negb_true_iff in H1. inversion Hc as [|? ? Ht Hts]; subst.
    destruct (head_step st t H1 Ht) as (Hn & Hin).
    rewrite <- (predictWebcam_lastVideoTime _ _ H1) in H2.
    destruct (IH _ H2 Hts) as [IHn IHin].
    rewrite run_cons, IHn, IHin, Hn, Hin. cbn [List.length].
    split; [lia | intuition lia].
Qed.

(** X10. Head turns are debounced like the eyes: over processed frames whose
    yaw ratio is below [YAW_RATIO_LEFT] or above [YAW_RATIO_RIGHT],
    [headTurnedFrames] grows by one per frame from any state, and the head
    alert is in the set afterwards exactly when it was before or the counter
    has reached [CONSECUTIVE_FRAMES]; from the initial state that is after
    fifteen frames and not earlier. *)
Theorem head_alert_after_15_turned_frames (st : State) (ticks : list Tick) :
  advancing (lastVideoTime st) ticks = true ->
  Forall turnedHead ticks ->
  headTurnedFrames (run st ticks) = headTurnedFrames st + List.length ticks /\
  (In HEAD_NOT_FORWARD (currentAlerts (run st ticks)) <->
   In HEAD_NOT_FORWARD (currentAlerts st) \/
   (0 < List.length ticks /\
    CONSECUTIVE_FRAMES <= headTurnedFrames st + List.length ticks)) /\
  (st = initialState ->
   (In HEAD_NOT_FORWARD (currentAlerts (run st ticks)) <->
    15 <= List.length ticks)).
Proof.
  intros Ha Hc. destruct (head_run ticks st Ha Hc) as [Hn Hin].
  split; [exact Hn|]. split; [exact Hin|].
  intros ->. rewrite Hin. cbn. unfold CONSECUTIVE_FRAMES. intuition lia.
Qed.

Lemma head_alert_after_15_turned_frames_witness :
  In HEAD_NOT_FORWARD
     (currentAlerts
        (run initialState (ticksOf (sampleFace 0.3 1 0 1 0.5 0.45 0.95) 0 15))) <->
  15 <= List.length (ticksOf (sampleFace 0.3 1 0 1 0.5 0.45 0.95) 0 15).
Proof.
  refine (proj2 (proj2 (head_alert_after_15_turned_frames initialState
            (ticksOf (sampleFace 0.3 1 0 1 0.5 0.45 0.95) 0 15) _ _)) eq_refl).
  - vm_compute. reflexivity.
  - repeat (apply Forall_cons;
            [do 3 eexists; split; vm_compute; reflexivity|]).
    apply Forall_nil.
Defined.

(** X11. Partial closure is debounced the same way: over processed frames
    with EAR in [[0.18, 0.22)], [eyePartiallyClosedFrames] grows by one per
    frame while [eyeClosedFrames] is 0, and the partial-closure alert is in
    the set afterwards exactly when it was before or the counter has reached
    [CONSECUTIVE_FRAMES]. *)
Theorem partial_alert_after_15_partial_frames (st : State) (ticks : list Tick) :
  advancing (lastVideoTime st) ticks = true ->
  Forall partialEyes ticks ->
  eyePartiallyClosedFrames (run st ticks) =
    eyePartiallyClosedFrames st + List.length ticks /\
  (0 < List.length ticks -> eyeClosedFrames (run st ticks) = 0) /\
  (In EYES_PARTIALLY_CLOSED (currentAlerts (run st ticks)) <->
   In EYES_PARTIALLY_CLOSED (currentAlerts st) \/
   (0 < List.length ticks /\
    CONSECUTIVE_FRAMES <= eyePartiallyClosedFrames st + List.length ticks)).
Proof.
  intros Ha Hp. destruct (partial_run ticks st Ha Hp) as [Hn Hin].
  split; [exact Hn|]. split; [|exact Hin].
  intros Hlen.
  revert st Ha Hp Hn Hin Hlen.
  induction ticks as [|t ticks IH] using rev_ind; intros st Ha Hp _ _ Hlen;
    [cbn in Hlen; lia|].
  rewrite run_app. cbn [run fold_left].
  apply Forall_app in Hp as [Hp Ht]. inversion Ht as [|? ? Hpt _]; subst.
  rewrite advancing_app in Ha. apply andb_true_iff in Ha as [Ha Hb].
  cbn [advancing] in Hb. rewrite andb_true_r in Hb. apply negb_true_iff in Hb.
  rewrite <- (run_lastVideoTime _ _ Ha) in Hb.
  destruct Hpt as (e & (m & h & Hd) & Hc & Hpp).
  rewrite (predictWebcam_detects _ _ _ _ _ Hb Hd). cbn [stateOf].
  destruct (classify_eye_counters e m h
              (set_lastVideoTime (currentTime t) (run st ticks))) as [-> _].
  now rewrite Hc.
Qed.

Lemma partial_alert_after_15_partial_frames_witness :
  In EYES_PARTIALLY_CLOSED
     (currentAlerts (run initialState (ticksOf (faceOf 0.2 0) 0 15))) <->
  In EYES_PARTIALLY_CLOSED (currentAlerts initialState) \/
  (0 < List.length (ticksOf (faceOf 0.2 0) 0 15) /\
   CONSECUTIVE_FRAMES <=
     eyePartiallyClosedFrames initialState
     + List.length (ticksOf (faceOf 0.2 0) 0 15)).
Proof.
  refine (proj2 (proj2 (partial_alert_after_15_partial_frames initialState
            (ticksOf (faceOf 0.2 0) 0 15) _ _))).
  - vm_compute. reflexivity.
  - repeat (apply Forall_cons;
            [exists 0.2%float; split;
             [do 2 eexists; vm_compute; reflexivity | split; reflexivity]|]).
    apply Forall_nil.
Defined.

(** ** Stop, then start again *)

Lemma stopMonitoring_is_initial (st : State) :
  stopMonitoring st = set_lastVideoTime (lastVideoTime st) initialState.
Proof. destruct st as [a b c d [|] l t]; reflexivity. Qed.

(** X12. After a stop the script classifies like a fresh page: when the first
    tick after it shows a video time that differs both from the last one
    processed and from the initial -1, every later call completes exactly as
    it would from the initial state.  Since [lastVideoTime] survives the stop,
    a first tick with the old video time is skipped instead. *)
Theorem stop_then_frames_as_fresh (st : State) (t : Tick) (ticks : list Tick) :
  ((lastVideoTime st =? currentTime t)%float = false ->
   (lastVideoTime initialState =? currentTime t)%float = false ->
   frames (stopMonitoring st) (t :: ticks) = frames initialState (t :: ticks)) /\
  ((lastVideoTime st =? currentTime t)%float = true ->
   predictWebcam (stopMonitoring st) t = Returned (stopMonitoring st) None).
Proof.
  rewrite stopMonitoring_is_initial. split.
  - intros H1 H2.
    assert (E : predictWebcam (set_lastVideoTime (lastVideoTime st) initialState) t =
                predictWebcam initialState t).
    { unfold predictWebcam. cbn [set_lastVideoTime lastVideoTime].
      cbn [initialState lastVideoTime] in H2. rewrite H1.
      change (lastVideoTime initialState) with (-1)%float. rewrite H2.
      reflexivity. }
    cbn [frames]. now rewrite E.
  - intros H. unfold predictWebcam. cbn [set_lastVideoTime lastVideoTime].
    now rewrite H.
Qed.

Lemma stop_then_frames_as_fresh_witness :
  frames (stopMonitoring (run initialState (ticksOf (faceOf 0.1 0.85) 0 15)))
         (ticksOf (faceOf 0.1 0) 15 3) =
  frames initialState (ticksOf (faceOf 0.1 0) 15 3).
Proof.
  refine (proj1 (stop_then_frames_as_fresh
            (run initialState (ticksOf (faceOf 0.1 0.85) 0 15))
            (mkTick 16 (Some [faceOf 0.1 0])) (ticksOf (faceOf 0.1 0) 16 2)) _ _);
    vm_compute; reflexivity.
Defined.

(** ** Colours of the status panel *)




(** ** Signs of the three features *)

Lemma round_aux_signClear (m e : Z) (l : location) :
  signClear (binary_round_aux prec emax false m e l).
Proof.
  unfold binary_round_aux.
  destruct (shr_fexp prec emax m e l) as [mrs e1].
  destruct (shr_fexp prec emax _ e1 loc_Exact) as [mrs2 e2].
  destruct (shr_m mrs2); [reflexivity | | exact I].
  destruct (e2 <=? emax - prec)%Z; reflexivity.
Qed.

Lemma round_signClear (m : positive) (e : Z) :
  signClear (binary_round prec emax false m e).
Proof.
  unfold binary_round. destruct (shl_align m e _) as [mz ez].
  apply round_aux_signClear.
Qed.

Lemma mul_self_signClear (a : spec_float) : signClear (SF64mul a a).
Proof.
  destruct a as [[|]|[|]| |[|] m e]; cbn; try reflexivity; try exact I;
    apply round_aux_signClear.
Qed.

Lemma mul_signClear (a b : spec_float) :
  signClear a -> signClear b -> signClear (SF64mul a b).
Proof.
  destruct a as [sa|sa| |sa ma ea], b as [sb|sb| |sb mb eb]; cbn;
    try (intros -> ->; reflexivity); try (intros; exact I).
  intros -> ->. apply round_aux_signClear.
Qed.

Lemma add_signClear (a b : spec_float) :
  signClear a -> signClear b -> signClear (SF64add a b).
Proof.
  destruct a as [sa|sa| |sa ma ea], b as [sb|sb| |sb mb eb]; cbn;
    try (intros -> ->; reflexivity); try (intros; exact I).
  intros -> ->. cbn. apply round_signClear.
Qed.

Lemma div_signClear (a b : spec_float) :
  signClear a -> signClear b -> signClear (SF64div a b).
Proof.
  destruct a as [sa|sa| |sa ma ea], b as [sb|sb| |sb mb eb]; cbn;
    try (intros -> ->; reflexivity); try (intros; exact I).
  intros -> ->. destruct (SFdiv_core_binary _ _ _ _ _ _) as [[mz ez] lz].
  apply round_aux_signClear.
Qed.

Lemma sqrt_signClear (a : spec_float) : signClear a -> signClear (SF64sqrt a).
Proof.
  destruct a as [sa|sa| |sa ma ea]; cbn;
    try (intros ->; reflexivity); try (intros; exact I).
  intros ->. destruct (SFsqrt_core_binary _ _ _ _) as [[mz ez] lz].
  apply round_aux_signClear.
Qed.

Lemma abs_signClear (a : spec_float) : signClear (SFabs a).
Proof. destruct a; cbn; try reflexivity; exact I. Qed.

Lemma euclideanDistance_signClear (p q : Landmark) :
  signClear (Prim2SF (euclideanDistance p q)).
Proof.
  unfold euclideanDistance. cbv zeta.
  rewrite sqrt_spec, !add_spec, !mul_spec.
  apply sqrt_signClear, add_signClear; [apply add_signClear|];
    apply mul_self_signClear.
Qed.

Lemma distanceAt_signClear (landmarks : list Landmark) (i j : nat) (d : float) :
  distanceAt landmarks i j = Some d -> signClear (Prim2SF d).
Proof.
  unfold distanceAt.
  destruct (at_index landmarks i) as [p|]; [|discriminate].
  destruct (at_index landmarks j) as [q|]; [|discriminate].
  intros [= <-]. apply euclideanDistance_signClear.
Qed.

Lemma two_bits : Prim2SF 2 = S754_finite false 4503599627370496 (-51).
Proof. vm_compute. reflexivity. Qed.

Lemma epsilon_signClear : signClear (Prim2SF 0.001).
Proof. vm_compute. reflexivity. Qed.

Lemma signClear_not_negative (f : float) :
  signClear (Prim2SF f) -> (f <? 0)%float = false.
Proof.
  rewrite ltb_spec. change (Prim2SF 0) with (S754_zero false).
  destruct (Prim2SF f) as [s|s| |s m e]; cbn; try reflexivity;
    intros ->; reflexivity.
Qed.

(** The eye ratio of one eye, [(V1 + V2) / (2.0 * H)]. *)
Lemma eye_ratio_signClear (v1 v2 h : float) :
  signClear (Prim2SF v1) -> signClear (Prim2SF v2) -> signClear (Prim2SF h) ->
  signClear (Prim2SF ((v1 + v2) / (2.0 * h))%float).
Proof.
  intros H1 H2 H3. rewrite div_spec, add_spec, mul_spec.
  apply div_signClear; [now apply add_signClear|].
  apply mul_signClear; [rewrite two_bits; reflexivity | exact H3].
Qed.

Lemma features_signClear (landmarks : list Landmark) (e m : float) (h : HeadPose) :
  features landmarks = Some (e, m, h) ->
  signClear (Prim2SF e) /\ signClear (Prim2SF m) /\ signClear (Prim2SF (yawRatio h)).
Proof.
  unfold features.
  destruct (calculateEAR landmarks) as [e'|] eqn:Ee; [|discriminate].
  destruct (calculateMAR landmarks) as [m'|] eqn:Em; [|discriminate].
  destruct (calculateHeadPose landmarks) as [h'|] eqn:Eh; [|discriminate].
  cbn [bind]. intros [= <- <- <-]. split; [|split].
  - unfold calculateEAR in Ee.
    destruct (distanceAt landmarks 160 144) as [a1|] eqn:A1; [|discriminate].
    destruct (distanceAt landmarks 158 153) as [a2|] eqn:A2; [|discriminate].
    destruct (distanceAt landmarks 33 133) as [a3|] eqn:A3; [|discriminate].
    destruct (distanceAt landmarks 385 380) as [a4|] eqn:A4; [|discriminate].
    destruct (distanceAt landmarks 387 373) as [a5|] eqn:A5; [|discriminate].
    destruct (distanceAt landmarks 362 263) as [a6|] eqn:A6; [|discriminate].
    cbn [bind] in Ee. injection Ee as <-.
    apply distanceAt_signClear in A1, A2, A3, A4, A5, A6.
    rewrite div_spec, add_spec. apply div_signClear.
    + apply add_signClear; now apply eye_ratio_signClear.
    + rewrite two_bits. reflexivity.
  - unfold calculateMAR in Em.
    destruct (distanceAt landmarks 13 14) as [a1|] eqn:A1; [|discriminate].
    destruct (distanceAt landmarks 78 308) as [a2|] eqn:A2; [|discriminate].
    cbn [bind] in Em. injection Em as <-.
    apply distanceAt_signClear in A1, A2.
    rewrite div_spec. now apply div_signClear.
  - rewrite calculateHeadPose_distances in Eh.
    destruct (headDistances landmarks) as [[l r]|] eqn:Ed; [|discriminate].
    cbn in Eh. injection Eh as <-. cbn [yawRatio].
    destruct (headDistances_abs _ _ _ Ed) as (a & b & -> & ->).
    rewrite div_spec. apply div_signClear.
    + rewrite abs_spec. apply abs_signClear.
    + unfold safeRightDist. destruct (_ =? _)%float.
      * apply epsilon_signClear.
      * rewrite abs_spec. apply abs_signClear.
Qed.

(** X14. Whatever the landmarks, EAR, MAR and the yaw ratio are never
    negative: each is a non-negative number or NaN.  So a yaw ratio below
    [YAW_RATIO_LEFT] lies in [[0, 0.4)]. *)
Theorem features_never_negative
  (landmarks : list Landmark) (e m : float) (h : HeadPose) :
  features landmarks = Some (e, m, h) ->
  (e <? 0)%float = false /\ (m <? 0)%float = false /\
  (yawRatio h <? 0)%float = false.
Proof.
  intros H. destruct (features_signClear _ _ _ _ H) as (He & Hm & Hh).
  repeat split; now apply signClear_not_negative.
Qed.

Lemma features_never_negative_witness :
  (0.10 <? 0)%float = false /\ (0.85 <? 0)%float = false /\
  (yawRatio (mkHeadPose 1 0 0) <? 0)%float = false.
Proof.
  apply (features_never_negative (faceOf 0.10 0.85) 0.10 0.85 (mkHeadPose 1 0 0)).
  vm_compute. reflexivity.
Defined.

(** ** Unguarded divisions *)

Lemma div_zero_infOrNan (a : spec_float) :
  signClear a -> infOrNan (SF64div a (S754_zero false)).
Proof.
  unfold infOrNan. destruct a as [s|s| |s m e]; cbn;
    try (intros ->); cbn; tauto.
Qed.

Lemma add_infOrNan_l (a b : spec_float) :
  infOrNan a -> signClear b -> infOrNan (SF64add a b).
Proof.
  unfold infOrNan. intros [-> | ->]; [|cbn; tauto].
  destruct b as [s|s| |s m e]; cbn; try (intros ->); cbn; tauto.
Qed.

Lemma add_infOrNan_r (a b : spec_float) :
  signClear a -> infOrNan b -> infOrNan (SF64add a b).
Proof.
  unfold infOrNan. intros Ha [-> | ->]; [|destruct a; cbn; tauto].
  destruct a as [s|s| |s m e]; cbn in *; try subst s; cbn; tauto.
Qed.

Lemma div_two_infOrNan (a : spec_float) :
  infOrNan a -> infOrNan (SF64div a (Prim2SF 2)).
Proof.
  rewrite two_bits. unfold infOrNan. intros [-> | ->]; cbn; tauto.
Qed.

Lemma infOrNan_not_below (f c : float) :
  infOrNan (Prim2SF f) -> (f <? c)%float = false.
Proof.
  rewrite ltb_spec. unfold infOrNan. intros [-> | ->]; [|reflexivity].
  destruct (Prim2SF c) as [s|[|]| |s m e]; reflexivity.
Qed.

Lemma infOrNan_value (f : float) :
  infOrNan (Prim2SF f) -> f = infinity \/ is_nan f = true.
Proof.
  intros [H | H].
  - left. apply Prim2SF_inj. rewrite H. reflexivity.
  - right. now apply is_nan_spec.
Qed.

Lemma zero_width_eye_ratio (v1 v2 : float) :
  signClear (Prim2SF v1) -> signClear (Prim2SF v2) ->
  infOrNan (Prim2SF ((v1 + v2) / (2.0 * 0))%float).
Proof.
  intros H1 H2. change (2.0 * 0)%float with 0%float.
  rewrite div_spec, add_spec. change (Prim2SF 0) with (S754_zero false).
  apply div_zero_infOrNan. now apply add_signClear.
Qed.

(** X15. The division by the eye width is not guarded: when the two corner
    landmarks of either eye are at distance 0, EAR is [Infinity] or NaN, which
    is below neither threshold, so such a frame is never counted as closed
    or partially closed. *)
Theorem zero_width_eye_never_closed
  (landmarks : list Landmark) (e m : float) (h : HeadPose) :
  features landmarks = Some (e, m, h) ->
  distanceAt landmarks 33 133 = Some 0%float \/
  distanceAt landmarks 362 263 = Some 0%float ->
  (e = infinity \/ is_nan e = true) /\
  (e <? EAR_THRESHOLD_CLOSED)%float = false /\
  (e <? EAR_THRESHOLD_PARTIALLY)%float = false.
Proof.
  intros Hf Hz.
  assert (He : infOrNan (Prim2SF e)).
  { unfold features in Hf.
    destruct (calculateEAR landmarks) as [e'|] eqn:Ee; [|discriminate].
    destruct (calculateMAR landmarks) as [m'|]; [|discriminate].
    destruct (calculateHeadPose landmarks) as [h'|]; [|discriminate].
    cbn [bind] in Hf. injection Hf as <- _ _.
    unfold calculateEAR in Ee.
    destruct (distanceAt landmarks 160 144) as [a1|] eqn:A1; [|discriminate].
    destruct (distanceAt landmarks 158 153) as [a2|] eqn:A2; [|discriminate].
    destruct (distanceAt landmarks 33 133) as [a3|] eqn:A3; [|discriminate].
    destruct (distanceAt landmarks 385 380) as [a4|] eqn:A4; [|discriminate].
    destruct (distanceAt landmarks 387 373) as [a5|] eqn:A5; [|discriminate].
    destruct (distanceAt landmarks 362 263) as [a6|] eqn:A6; [|discriminate].
    cbn [bind] in Ee. injection Ee as <-.
    apply distanceAt_signClear in A1, A2, A4, A5.
    pose proof (distanceAt_signClear _ _ _ _ A3) as S3.
    pose proof (distanceAt_signClear _ _ _ _ A6) as S6.
    rewrite div_spec, add_spec. apply div_two_infOrNan.
    destruct Hz as [Hz | Hz]; injection Hz as ->.
    - apply add_infOrNan_l; [now apply zero_width_eye_ratio|].
      now apply eye_ratio_signClear.
    - apply add_infOrNan_r; [now apply eye_ratio_signClear|].
      now apply zero_width_eye_ratio. }
  split; [now apply infOrNan_value|].
  split; now apply infOrNan_not_below.
Qed.

Lemma zero_width_eye_never_closed_witness :
  (infinity <? EAR_THRESHOLD_PARTIALLY)%float = false.
Proof.
  refine (proj2 (proj2 (zero_width_eye_never_closed
            (sampleFace 0.01 0 0 1 0.5 0.25 0.75) infinity 0 (mkHeadPose 1 0 0)
            _ _))).
  - vm_compute. reflexivity.
  - left. vm_compute. reflexivity.
Defined.

(** X16. Nor is the division by the mouth width: with the mouth corners at
    distance 0 and the inner lips a finite non-zero distance apart, MAR is
    [Infinity], which is above both mouth thresholds, so the frame counts as a
    yawn of the excessive kind. *)
Theorem zero_width_mouth_counts_as_yawn
  (landmarks : list Landmark) (v : float) :
  distanceAt landmarks 13 14 = Some v ->
  distanceAt landmarks 78 308 = Some 0%float ->
  is_finite v = true -> is_zero v = false ->
  calculateMAR landmarks = Some infinity /\
  (MAR_THRESHOLD_YAWN <? infinity)%float = true /\
  (MAR_THRESHOLD_ALERT <? infinity)%float = true.
Proof.
  intros Hv Hh Hfin Hnz.
  split; [|split; reflexivity].
  unfold calculateMAR. rewrite Hv, Hh. cbn [bind]. f_equal.
  apply Prim2SF_inj. rewrite div_spec.
  change (Prim2SF 0) with (S754_zero false).
  change (Prim2SF infinity) with (S754_infinity false).
  pose proof (distanceAt_signClear _ _ _ _ Hv) as S.
  revert Hfin Hnz S. unfold is_finite, is_zero, is_nan, is_infinity.
  rewrite !eqb_spec, abs_spec.
  destruct (Prim2SF v) as [[|]|[|]| |s mv ev]; cbn; try discriminate.
  intros _ _ ->. reflexivity.
Qed.

Lemma zero_width_mouth_counts_as_yawn_witness :
  calculateMAR (sampleFace 0.3 1 0.02 0 0.5 0.25 0.75) = Some infinity.
Proof.
  refine (proj1 (zero_width_mouth_counts_as_yawn
            (sampleFace 0.3 1 0.02 0 0.5 0.25 0.75) 0.02 _ _ _ _));
    vm_compute; reflexivity.
Defined.

(** ** Both yawn alerts at once *)

(** X17. While MAR stays above [MAR_THRESHOLD_YAWN] no yawn alert is ever
    removed: on such a reported frame each yawn alert that was active stays
    active, so when a sustained yawn crosses [MAR_THRESHOLD_ALERT] the
    yawning-detected alert remains beside the excessive-yawning one. *)
Theorem yawn_alerts_accumulate (st : State) (t : Tick) (r : Report) :
  reportOf (predictWebcam st t) = Some r ->
  (MAR_THRESHOLD_YAWN <? mar r)%float = true ->
  (In YAWNING_DETECTED (currentAlerts st) ->
   In YAWNING_DETECTED (currentAlerts (stateOf (predictWebcam st t)))) /\
  (In EXCESSIVE_YAWNING (currentAlerts st) ->
   In EXCESSIVE_YAWNING (currentAlerts (stateOf (predictWebcam st t)))) /\
  (In YAWNING_DETECTED (currentAlerts st) ->
   CONSECUTIVE_FRAMES <= yawnFrames st + 1 ->
   (MAR_THRESHOLD_ALERT <? mar r)%float = true ->
   In YAWNING_DETECTED (currentAlerts (stateOf (predictWebcam st t))) /\
   In EXCESSIVE_YAWNING (currentAlerts (stateOf (predictWebcam st t)))).
Proof.
  intros H.
  destruct (report_is_classify _ _ _ H) as (e & m & h & _ & Hm & _ & _ & _ & -> & _).
  rewrite <- Hm. clear Hm. intros Hy.
  rewrite !classify_In_yawn by tauto. rewrite Hy.
  cbn [set_lastVideoTime currentAlerts yawnFrames].
  repeat split; try tauto.
  right. split; [assumption|].
  match goal with Ha : (MAR_THRESHOLD_ALERT <? m)%float = true |- _ => now rewrite Ha end.
Qed.

Lemma yawn_alerts_accumulate_witness :
  In YAWNING_DETECTED
     (currentAlerts
        (stateOf (predictWebcam (run initialState (ticksOf (faceOf 0.5 0.65) 0 15))
                                (mkTick 16 (Some [faceOf 0.5 0.85]))))) /\
  In EXCESSIVE_YAWNING
     (currentAlerts
        (stateOf (predictWebcam (run initialState (ticksOf (faceOf 0.5 0.65) 0 15))
                                (mkTick 16 (Some [faceOf 0.5 0.85]))))).
Proof.
  refine (proj2 (proj2 (yawn_alerts_accumulate
            (run initialState (ticksOf (faceOf 0.5 0.65) 0 15))
            (mkTick 16 (Some [faceOf 0.5 0.85]))
            (mkReport 0.5 0.85 (mkHeadPose 1 0 0) "OPEN" "YAWNING" "FORWARD" "DROWSY")
            _ _)) _ _ _).
  - vm_compute. reflexivity.
  - reflexivity.
  - vm_compute. tauto.
  - vm_compute. lia.
  - reflexivity.
Defined.

(** ** [euclideanDistance] as a distance *)

Lemma round_aux_opp (m e : Z) (l : location) :
  binary_round_aux prec emax true m e l =
  SFopp (binary_round_aux prec emax false m e l).
Proof.
  unfold binary_round_aux.
  destruct (shr_fexp prec emax m e l) as [mrs e1].
  destruct (shr_fexp prec emax _ e1 loc_Exact) as [mrs2 e2].
  destruct (shr_m mrs2); [reflexivity | | reflexivity].
  destruct (e2 <=? emax - prec)%Z; reflexivity.
Qed.

Lemma round_opp (m : positive) (e : Z) :
  binary_round prec emax true m e = SFopp (binary_round prec emax false m e).
Proof.
  unfold binary_round. destruct (shl_align m e _) as [mz ez]. apply round_aux_opp.
Qed.

Lemma normalize_opp (d e : Z) :
  binary_normalize prec emax (- d) e false = binary_normalize prec emax d e false \/
  binary_normalize prec emax (- d) e false =
    SFopp (binary_normalize prec emax d e false).
Proof.
  destruct d as [|p|p]; cbn.
  - now left.
  - right. apply round_opp.
  - right. rewrite round_opp. destruct (binary_round prec emax false p e); cbn;
      rewrite ?negb_involutive; reflexivity.
Qed.

(** [b - a] is [a - b] or its opposite (they agree on a zero or NaN result). *)
Lemma SFsub_swap (a b : spec_float) :
  SF64sub b a = SF64sub a b \/ SF64sub b a = SFopp (SF64sub a b).
Proof.
  destruct a as [[|]|[|]| |sa ma ea], b as [[|]|[|]| |sb mb eb]; cbn;
    try (now left); try (now right);
    try (right; rewrite ?negb_involutive; reflexivity).
  rewrite (Z.min_comm eb ea).
  set (A := cond_Zopp sa _). set (B := cond_Zopp sb _).
  replace (B - A)%Z with (- (A - B))%Z by lia.
  apply normalize_opp.
Qed.

Lemma mul_self_opp (u : spec_float) : SF64mul (SFopp u) (SFopp u) = SF64mul u u.
Proof. destruct u as [[|]|[|]| |[|] m e]; reflexivity. Qed.

Lemma sq_sub_swap (a b : float) :
  ((a - b) * (a - b))%float = ((b - a) * (b - a))%float.
Proof.
  apply Prim2SF_inj. rewrite !mul_spec, !sub_spec.
  destruct (SFsub_swap (Prim2SF a) (Prim2SF b)) as [-> | ->];
    [reflexivity | now rewrite mul_self_opp].
Qed.

Lemma sub_self (a : float) : is_finite a = true -> (a - a)%float = 0%float.
Proof.
  unfold is_finite, is_nan, is_infinity. rewrite !eqb_spec, abs_spec. intros Hf.
  apply Prim2SF_inj. rewrite sub_spec. change (Prim2SF 0) with (S754_zero false).
  destruct (Prim2SF a) as [[|]|[|]| |s m e]; try discriminate; try reflexivity.
  cbn. rewrite Z.sub_diag. reflexivity.
Qed.

(** X18. [euclideanDistance] is symmetric, bit for bit, for all coordinates
    (infinite and NaN ones included), so each distance inside EAR and MAR is
    the same whichever landmark of the pair is passed first. *)
Theorem euclideanDistance_symmetric (landmarks : list Landmark) (i j : nat) :
  (forall p q, euclideanDistance p q = euclideanDistance q p) /\
  distanceAt landmarks i j = distanceAt landmarks j i.
Proof.
  assert (S : forall p q, euclideanDistance p q = euclideanDistance q p).
  { intros p q. unfold euclideanDistance. cbv zeta.
    now rewrite (sq_sub_swap (x p) (x q)), (sq_sub_swap (y p) (y q)),
      (sq_sub_swap (z p) (z q)). }
  split; [exact S|]. unfold distanceAt.
  destruct (at_index landmarks i) as [p|], (at_index landmarks j) as [q|];
    cbn [bind]; try reflexivity. now rewrite S.
Qed.

(** X19. Two landmarks at the same point with finite coordinates are at
    distance exactly 0 (with an infinite or NaN coordinate the difference is
    NaN instead); this is the zero width that EAR and MAR then divide by. *)
Theorem coincident_landmarks_distance_zero
  (landmarks : list Landmark) (i j : nat) (p : Landmark) :
  at_index landmarks i = Some p ->
  at_index landmarks j = Some p ->
  finiteLandmark p = true ->
  euclideanDistance p p = 0%float /\ distanceAt landmarks i j = Some 0%float.
Proof.
  intros Hi Hj Hf. unfold finiteLandmark in Hf.
  apply andb_true_iff in Hf as [Hf Hz]. apply andb_true_iff in Hf as [Hx Hy].
  assert (E : euclideanDistance p p = 0%float).
  { unfold euclideanDistance. cbv zeta.
    rewrite (sub_self _ Hx), (sub_self _ Hy), (sub_self _ Hz). reflexivity. }
  split; [exact E|]. unfold distanceAt. rewrite Hi, Hj. cbn [bind]. now rewrite E.
Qed.

Lemma coincident_landmarks_distance_zero_witness :
  distanceAt (sampleFace 0.01 0 0 1 0.5 0.25 0.75) 33 133 = Some 0%float.
Proof.
  refine (proj2 (coincident_landmarks_distance_zero
            (sampleFace 0.01 0 0 1 0.5 0.25 0.75) 33 133 (mkLandmark 0 0 0) _ _ _));
    vm_compute; reflexivity.
Defined.
